(** * Java guidelines plugin for fedora-review: checks and their verdicts

    Shallow embedding of [src/fedora-review/java_guidelines.py].

    Python [str] values are modelled as [string]; a character is a code
    point in the range 0..255.  The check classes are modelled as functions
    from the two host views (the spec file and the built rpms) and the state
    of the check object to the new state of the check object. *)

From Stdlib Require Import Bool List Arith Lia Ascii String.
Import ListNotations.

Open Scope list_scope.
Open Scope string_scope.
Open Scope nat_scope.

(* ================================================================== *)
(** ** Python text primitives used by the plugin *)
(* ================================================================== *)

Module PyStr.

(** [s.startswith(p)] *)
Fixpoint startswith (s p : string) {struct p} : bool :=
  match p with
  | EmptyString => true
  | String a p' =>
      match s with
      | EmptyString => false
      | String b s' => Ascii.eqb a b && startswith s' p'
      end
  end.

(** [w in s] on two strings: [w] occurs in [s] as a contiguous run. *)
Fixpoint contains (w s : string) : bool :=
  startswith s w ||
  match s with
  | EmptyString => false
  | String _ s' => contains w s'
  end.

(** [s.endswith(p)] *)
Fixpoint endswith (s p : string) : bool :=
  String.eqb s p ||
  match s with
  | EmptyString => false
  | String _ s' => endswith s' p
  end.

(** [x in l] on a list of strings: some element equals [x]. *)
Definition mem (x : string) (l : list string) : bool :=
  existsb (String.eqb x) l.

(** Whitespace as [str.isspace] and the regex class [\s] see it, on code
    points below 256: TAB..CR, FS..US, SPACE, NEL and NBSP. *)
Definition isspace (c : ascii) : bool :=
  let n := nat_of_ascii c in
  ((9 <=? n) && (n <=? 13)) || ((28 <=? n) && (n <=? 32))
  || (n =? 133) || (n =? 160).

(** [c.lower()] on code points below 256: A-Z and the Latin-1 capitals
    0xC0..0xDE (0xD7, the multiplication sign, apart) move up by 32. *)
Definition lower_char (c : ascii) : ascii :=
  let n := nat_of_ascii c in
  if ((65 <=? n) && (n <=? 90))
     || ((192 <=? n) && (n <=? 222) && negb (n =? 215))
  then ascii_of_nat (n + 32) else c.

(** [s.lower()] *)
Fixpoint lower (s : string) : string :=
  match s with
  | EmptyString => EmptyString
  | String c s' => String (lower_char c) (lower s')
  end.

(** [s.lstrip()], [s.rstrip()], [s.strip()] *)
Fixpoint lstrip (s : string) : string :=
  match s with
  | EmptyString => EmptyString
  | String c s' => if isspace c then lstrip s' else s
  end.

Fixpoint rstrip (s : string) : string :=
  match s with
  | EmptyString => EmptyString
  | String c s' =>
      match rstrip s' with
      | EmptyString => if isspace c then EmptyString else String c EmptyString
      | r => String c r
      end
  end.

Definition strip (s : string) : string := rstrip (lstrip s).

(** Truth value of a [str]: the empty string is false. *)
Definition truthy (s : string) : bool :=
  match s with EmptyString => false | String _ _ => true end.

(** Truth value of a [str]-or-[None]. *)
Definition truthy_opt (o : option string) : bool :=
  match o with None => false | Some s => truthy s end.

(** [str(o)], as the [%s] of a format puts it, of a [str]-or-[None]. *)
Definition str (o : option string) : string :=
  match o with None => "None" | Some s => s end.

(** Every character of [s] satisfies [p]. *)
Fixpoint all_chars (p : ascii -> bool) (s : string) : bool :=
  match s with
  | EmptyString => true
  | String c s' => p c && all_chars p s'
  end.

End PyStr.

(* ================================================================== *)
(** ** The fragment of Python's [re] the plugin's patterns are written in *)
(* ================================================================== *)

Module Re.

(** One-character items. *)
Inductive atom : Type :=
| Lit (c : ascii)        (* the character itself *)
| NotLit (c : ascii)     (* [^c] *)
| AnyChar                (* .  : everything but a newline *)
| Space.                 (* \s *)

Inductive regex : Type :=
| Void                   (* matches nothing; arises in derivatives only *)
| Eps                    (* the empty pattern *)
| Atom (a : atom)
| Cat (r1 r2 : regex)    (* r1 r2 *)
| Alt (r1 r2 : regex)    (* r1|r2 *)
| Star (r : regex).      (* r* *)

(** A run of literal characters. *)
Fixpoint Str (s : string) : regex :=
  match s with
  | EmptyString => Eps
  | String c s' => Cat (Atom (Lit c)) (Str s')
  end.

(** A compiled pattern: the body, whether it opens with [^], whether it
    closes with [$], and the IGNORECASE flag. *)
Record pattern : Type := Pattern {
  at_start : bool;
  body : regex;
  at_end : bool;
  ignorecase : bool
}.

Definition newline : ascii := ascii_of_nat 10.

Definition atom_matches (ci : bool) (a : atom) (d : ascii) : bool :=
  match a with
  | Lit c =>
      if ci then Ascii.eqb (PyStr.lower_char c) (PyStr.lower_char d)
      else Ascii.eqb c d
  | NotLit c =>
      negb (if ci then Ascii.eqb (PyStr.lower_char c) (PyStr.lower_char d)
            else Ascii.eqb c d)
  | AnyChar => negb (Ascii.eqb d newline)
  | Space => PyStr.isspace d
  end.

Fixpoint nullable (r : regex) : bool :=
  match r with
  | Void => false
  | Eps => true
  | Atom _ => false
  | Cat r1 r2 => nullable r1 && nullable r2
  | Alt r1 r2 => nullable r1 || nullable r2
  | Star _ => true
  end.

(** What is left of [r] after reading the character [d]. *)
Fixpoint deriv (ci : bool) (d : ascii) (r : regex) : regex :=
  match r with
  | Void => Void
  | Eps => Void
  | Atom a => if atom_matches ci a d then Eps else Void
  | Cat r1 r2 =>
      if nullable r1
      then Alt (Cat (deriv ci d r1) r2) (deriv ci d r2)
      else Cat (deriv ci d r1) r2
  | Alt r1 r2 => Alt (deriv ci d r1) (deriv ci d r2)
  | Star r1 => Cat (deriv ci d r1) (Star r1)
  end.

(** Where [$] holds (MULTILINE is off): at the end of the text, and in
    front of a newline that ends the text. *)
Definition dollar_ok (rest : string) : bool :=
  match rest with
  | EmptyString => true
  | String c EmptyString => Ascii.eqb c newline
  | _ => false
  end.

Definition end_ok (p : pattern) (rest : string) : bool :=
  if at_end p then dollar_ok rest else true.

(** Some prefix of [s] matches [r] and leaves a rest that [ok] accepts. *)
Fixpoint match_here (ci : bool) (ok : string -> bool) (r : regex)
         (s : string) : bool :=
  (nullable r && ok s) ||
  match s with
  | EmptyString => false
  | String c s' => match_here ci ok (deriv ci c r) s'
  end.

(** A match starts at some position of [s]. *)
Fixpoint match_anywhere (ci : bool) (ok : string -> bool) (r : regex)
         (s : string) : bool :=
  match_here ci ok r s ||
  match s with
  | EmptyString => false
  | String _ s' => match_anywhere ci ok r s'
  end.

(** [p.search(s)] as a truth value: a match object (true) or [None]. *)
Definition search (p : pattern) (s : string) : bool :=
  if at_start p
  then match_here (ignorecase p) (end_ok p) (body p) s
  else match_anywhere (ignorecase p) (end_ok p) (body p) s.

(** How a text is read under the IGNORECASE flag. *)
Definition fold_case (ci : bool) (s : string) : string :=
  if ci then PyStr.lower s else s.

(** The strings a regex matches in full. *)
Inductive matches (ci : bool) : regex -> string -> Prop :=
| m_eps : matches ci Eps EmptyString
| m_atom a d : atom_matches ci a d = true ->
               matches ci (Atom a) (String d EmptyString)
| m_cat r1 r2 u v : matches ci r1 u -> matches ci r2 v ->
                    matches ci (Cat r1 r2) (u ++ v)
| m_alt_l r1 r2 u : matches ci r1 u -> matches ci (Alt r1 r2) u
| m_alt_r r1 r2 u : matches ci r2 u -> matches ci (Alt r1 r2) u
| m_star_nil r : matches ci (Star r) EmptyString
| m_star_cons r u v : matches ci r u -> matches ci (Star r) v ->
                      matches ci (Star r) (u ++ v).

End Re.

(* ================================================================== *)
(** ** The host: check objects and the two read-only views *)
(* ================================================================== *)

Module Host.

(** The verdicts of a check ([CheckBase.PASS], [FAIL], [PENDING], [NA]). *)
Inductive state : Type := PASS | FAIL | PENDING | NA.

(** What a check hands to [set_passed]: a Python boolean or a verdict. *)
Inductive passed : Type :=
| Flag (b : bool)
| Verdict (s : state).

(** The part of a check object the plugin writes: its verdict, [None] as
    long as the check is unevaluated, and the free text that goes with it. *)
Record check : Type := MkCheck {
  result : option state;
  output_extra : option string
}.

Definition unevaluated : check := MkCheck None None.

(** Modelled from the spec: [CheckBase.set_passed], which is host code that
    is not under src/.  It records the verdict and the optional text; a
    boolean stands for PASS (true) or FAIL (false). *)
Definition set_passed (r : passed) (extra : option string) (self : check)
  : check :=
  match r with
  | Flag true => MkCheck (Some PASS) extra
  | Flag false => MkCheck (Some FAIL) extra
  | Verdict s => MkCheck (Some s) extra
  end.

(** Modelled from the spec: the spec view.  The ordered build-requires, the
    declared (sub)packages, name and version, the text of the spec file as
    lines, the computed requires of a package ([None] is the main package)
    and the expansion of a tag in a package ([None] when it does not
    expand). *)
Record SpecFile : Type := {
  name : string;
  version : string;
  build_requires : list string;
  packages : list string;
  lines : list string;
  get_requires : option string -> list string;
  expand_tag : string -> string -> option string
}.

(** Modelled from the spec: the flag of the generic regex search.  When
    [find_re] is handed the text of a pattern and not a compiled one, the
    host compiles the text itself, with [re.IGNORECASE]; the spec leaves the
    flag open. *)
Definition find_re_ignorecase : bool := true.

(** Modelled from the spec: [SpecFile.find_re], the generic regex search
    over the spec text.  The first line the pattern is found in, stripped,
    or [None]. *)
Definition find_re (p : Re.pattern) (spec : SpecFile) : option string :=
  option_map PyStr.strip (find (Re.search p) (lines spec)).

(** Modelled from the spec: the built-package view.  The packages that were
    built and the file list of each. *)
Record RpmsSource : Type := {
  containers : list string;
  filelist : string -> list string
}.

(** Modelled from the spec: the host's glob matching of a path against a
    pattern, for patterns written with literal characters, [?] (one
    character) and [*] (any run of characters, [/] included).  The whole
    path has to match. *)
Fixpoint fnmatch_pat (pat : string) : string -> bool :=
  match pat with
  | EmptyString =>
      fun path => match path with EmptyString => true | _ => false end
  | String c pat' =>
      if Ascii.eqb c "*" then
        fix star (path : string) : bool :=
          fnmatch_pat pat' path ||
          match path with
          | EmptyString => false
          | String _ path' => star path'
          end
      else
        fun path =>
          match path with
          | EmptyString => false
          | String d path' =>
              (Ascii.eqb c "?" || Ascii.eqb c d) && fnmatch_pat pat' path'
          end
  end.

Definition fnmatch (path pat : string) : bool := fnmatch_pat pat path.

(** Modelled from the spec: [rpms.find_all(glob, container)], the paths
    matching a glob in the file list of one package, or of every package
    when no container is given. *)
Definition find_all (glob : string) (container : option string)
           (rpms : RpmsSource) : list string :=
  let files :=
    match container with
    | Some pkg => filelist rpms pkg
    | None => flat_map (filelist rpms) (containers rpms)
    end in
  filter (fun path => fnmatch path glob) files.

(** Modelled from the spec: [rpms.find(glob, container)], the first such
    path or [None]. *)
Definition find (glob : string) (container : option string)
           (rpms : RpmsSource) : option string :=
  hd_error (find_all glob container rpms).

(** Truth value of a Python list: the empty list is false. *)
Definition truthy_list {A : Type} (l : list A) : bool :=
  match l with [] => false | _ :: _ => true end.

End Host.

(* ================================================================== *)
(** ** The plugin *)
(* ================================================================== *)

Import Host.

Definition nl : string := String Re.newline EmptyString.

(** *** JavaCheckBase *)

Module JavaCheckBase.

(** [_is_maven_pkg]: some build-requirement contains 'maven-local'. *)
Definition _is_maven_pkg (spec : SpecFile) : bool :=
  existsb (fun build_r => PyStr.contains "maven-local" build_r)
          (build_requires spec).

(** '([^#]*%mvn_build)|([^#]*%mvn_install)', handed to [find_re] as text. *)
Definition xmvn_re : Re.pattern :=
  Re.Pattern false
    (Re.Alt
       (Re.Cat (Re.Star (Re.Atom (Re.NotLit "#"))) (Re.Str "%mvn_build"))
       (Re.Cat (Re.Star (Re.Atom (Re.NotLit "#"))) (Re.Str "%mvn_install")))
    false find_re_ignorecase.

(** [_is_xmvn_pkg]: what [find_re] returns; callers take its truth value. *)
Definition _is_xmvn_pkg (spec : SpecFile) : option string :=
  find_re xmvn_re spec.

(** [_get_javadoc_sub]: the first declared package whose name ends with
    '-javadoc', or [None]. *)
Definition _get_javadoc_sub (spec : SpecFile) : option string :=
  List.find (fun pkg => PyStr.endswith pkg "-javadoc") (packages spec).

(** r'^\s*$' *)
Definition empty_regex : Re.pattern :=
  Re.Pattern true (Re.Star (Re.Atom Re.Space)) true false.

(** The loop of [_search_previous_line] over [reversed(section)].  A
    compiled pattern enters through the truth value of its [search] method
    only, so [trigger], [pivot] and [judge] are tests on a line. *)
Fixpoint scan_reversed (trigger pivot judge : string -> bool)
         (rev_section : list string) (found_trigger found_pivot : bool)
         (self : check) : option bool * check :=
  match rev_section with
  | [] => (None, self)
  | line :: rest =>
      let found_trigger := if trigger line then true else found_trigger in
      if found_trigger && pivot line then
        scan_reversed trigger pivot judge rest found_trigger true self
      else if found_pivot && negb (Re.search empty_regex line) then
        if judge line then (Some true, self)
        else (Some false, set_passed (Verdict FAIL) None self)
      else
        scan_reversed trigger pivot judge rest found_trigger found_pivot self
  end.

(** [_search_previous_line]: the value returned ([None], [True], [False])
    and the check object afterwards. *)
Definition _search_previous_line (self : check) (section : list string)
           (trigger pivot judge : string -> bool) : option bool * check :=
  scan_reversed trigger pivot judge (rev section) false false self.

End JavaCheckBase.

Import JavaCheckBase.

Definition JAVAPACKAGES_BR : list string :=
  ["javapackages-tools"; "jpackage-utils"; "javapackages-local";
   "gradle-local"].

Definition JAVAPACKAGES_R : list string :=
  ["javapackages-tools"; "jpackage-utils"].

(** *** CheckJavadoc *)

Module CheckJavadoc.

Definition no_subpackage_text : string :=
  "No javadoc subpackage present. "
  ++ "Note: Javadocs are optional for Fedora "
  ++ "versions >= 21".

Definition run_on_applicable (spec : SpecFile) (rpms : RpmsSource)
           (self : check) : check :=
  let pkg := _get_javadoc_sub spec in
  if negb (PyStr.truthy_opt pkg) then
    set_passed (Verdict FAIL) (Some no_subpackage_text) self
  else
    if PyStr.truthy_opt (find "*.html" pkg rpms) then
      set_passed (Verdict PASS) None self
    else
      set_passed (Verdict FAIL)
                 (Some ("No javadoc html files found in " ++ PyStr.str pkg))
                 self.

End CheckJavadoc.

(** *** CheckJavadocdirName *)

Module CheckJavadocdirName.

Definition name_ver_pattern (spec : SpecFile) : string :=
  "/usr/share/javadoc/" ++ name spec ++ "-" ++ version spec ++ "/*".

Definition name_pattern (spec : SpecFile) : string :=
  "/usr/share/javadoc/" ++ name spec ++ "/*".

Definition run_on_applicable (spec : SpecFile) (rpms : RpmsSource)
           (self : check) : check :=
  let pkg := _get_javadoc_sub spec in
  if negb (PyStr.truthy_opt pkg) then
    set_passed (Verdict FAIL) (Some "No javadoc subpackage present") self
  else
    if truthy_list (find_all (name_ver_pattern spec) pkg rpms) then
      set_passed (Verdict FAIL)
                 (Some ("Found deprecated versioned javadoc paths "
                        ++ name_ver_pattern spec)) self
    else if negb (truthy_list (find_all (name_pattern spec) pkg rpms)) then
      set_passed (Verdict FAIL)
                 (Some ("No /usr/share/javadoc/" ++ name spec ++ " found"))
                 self
    else
      set_passed (Verdict PASS) None self.

End CheckJavadocdirName.

(** *** CheckJPackageRequires *)

Module CheckJPackageRequires.

Definition maven_text : string :=
  "Maven packages do not need to (Build)Require "
  ++ "jpackage-utils. It is pulled in by maven-local".

(** [any(x in br for x in tokens for br in reqs)] *)
Definition any_token_in (tokens reqs : list string) : bool :=
  existsb (fun x => existsb (fun br => PyStr.contains x br) reqs) tokens.

Definition run_on_applicable (spec : SpecFile) (self : check) : check :=
  let brs := build_requires spec in
  let requires := get_requires spec None in
  let br_found := any_token_in JAVAPACKAGES_BR brs in
  let r_found := any_token_in JAVAPACKAGES_R requires in
  if _is_maven_pkg spec || PyStr.truthy_opt (_is_xmvn_pkg spec) then
    set_passed (Flag (negb (br_found || r_found))) (Some maven_text) self
  else
    set_passed (Flag (br_found && r_found)) None self.

End CheckJPackageRequires.

(** *** CheckJavadocJPackageRequires *)

Module CheckJavadocJPackageRequires.

Definition generated_text : string :=
  "javapackages-tools requires are automatically "
  ++ "generated by the buildsystem".

Definition run_on_applicable (spec : SpecFile) (self : check) : check :=
  let pkgs := filter (fun pkg => PyStr.endswith pkg "-javadoc")
                     (packages spec) in
  match pkgs with
  | [] => set_passed (Verdict NA) None self
  | _ :: _ :: _ =>
      set_passed (Verdict PENDING) (Some "More than one javadoc package") self
  | [pkg0] =>
      let reqs := get_requires spec (Some pkg0) in
      let ok := negb (existsb (fun x => PyStr.mem x reqs) JAVAPACKAGES_R) in
      set_passed (Verdict (if ok then PASS else FAIL))
                 (if negb ok then Some generated_text else None) self
  end.

End CheckJavadocJPackageRequires.

(** *** CheckAddMavenDepmap *)

Module CheckAddMavenDepmap.

(** '[^#]*%add_maven_depmap', handed to [find_re] as text. *)
Definition add_maven_depmap_re : Re.pattern :=
  Re.Pattern false
    (Re.Cat (Re.Star (Re.Atom (Re.NotLit "#"))) (Re.Str "%add_maven_depmap"))
    false find_re_ignorecase.

Definition indent : string := "                            ".

Definition fail_text : string :=
  "Old style Maven package found, no" ++ nl ++
  indent ++ "add_maven_depmap calls found but POM files" ++ nl ++
  indent ++ "present".

Definition pending_text : string :=
  "Some add_maven_depmap" ++ nl ++
  indent ++ "calls found. Please check if they are correct or" ++ nl ++
  indent ++ "update to latest guidelines".

Definition run (spec : SpecFile) (rpms : RpmsSource) (self : check)
  : check :=
  if negb (PyStr.truthy_opt (find "*.pom" None rpms)) then
    set_passed (Verdict NA) None self
  else if PyStr.truthy_opt (_is_xmvn_pkg spec) then
    set_passed (Verdict PASS) None self
  else if negb (PyStr.truthy_opt (find_re add_maven_depmap_re spec)) then
    set_passed (Verdict FAIL) (Some fail_text) self
  else
    set_passed (Verdict PENDING) (Some pending_text) self.

End CheckAddMavenDepmap.

(** *** CheckMvnRpmbuild *)

Module CheckMvnRpmbuild.

(** re.compile(r'[^#]*mvn-rpmbuild') *)
Definition mvn_rpmbuild : Re.pattern :=
  Re.Pattern false
    (Re.Cat (Re.Star (Re.Atom (Re.NotLit "#"))) (Re.Str "mvn-rpmbuild"))
    false false.

Definition fail_text : string :=
  "Convert the package to use %mvn_build "
  ++ "instead of deprecated mvn-rpmbuild".

Definition run (spec : SpecFile) (self : check) : check :=
  if PyStr.truthy_opt (find_re mvn_rpmbuild spec) then
    set_passed (Verdict FAIL) (Some fail_text) self
  else
    set_passed (Verdict NA) None self.

End CheckMvnRpmbuild.

(** *** CheckNoArch *)

Module CheckNoArch.

Definition pending_text (pkg : string) : string :=
  pkg ++ " subpackage is not " ++ "noarch. Please verify manually".

(** The value of [arch] when it is compared with 'noarch': lowered when
    it is true, as it came otherwise. *)
Definition lowered (arch : option string) : option string :=
  if PyStr.truthy_opt arch then option_map PyStr.lower arch else arch.

Definition is_noarch (arch : option string) : bool :=
  match arch with
  | Some a => String.eqb a "noarch"
  | None => false
  end.

(** The [for ... else] over the declared packages. *)
Fixpoint for_packages (spec : SpecFile) (pkgs : list string) (self : check)
  : check :=
  match pkgs with
  | [] => set_passed (Verdict PASS) None self
  | pkg :: rest =>
      let arch := lowered (expand_tag spec "arch" pkg) in
      if negb (is_noarch arch) then
        set_passed (Verdict PENDING) (Some (pending_text pkg)) self
      else for_packages spec rest self
  end.

Definition run_on_applicable (spec : SpecFile) (self : check) : check :=
  for_packages spec (packages spec) self.

End CheckNoArch.

(** *** CheckNewStyleMaven *)

Module CheckNewStyleMaven.

Definition fail_text : string :=
  "If possible update your package to latest guidelines".

Definition run (spec : SpecFile) (self : check) : check :=
  if _is_maven_pkg spec && PyStr.truthy_opt (_is_xmvn_pkg spec) then
    set_passed (Verdict PASS) None self
  else if _is_maven_pkg spec then
    set_passed (Verdict FAIL) (Some fail_text) self
  else
    set_passed (Verdict NA) None self.

End CheckNewStyleMaven.

(* ================================================================== *)
(** ** Vocabulary of the statements *)
(* ================================================================== *)

Module Terms.

(** A line of nothing but whitespace. *)
Definition blank (line : string) : bool :=
  PyStr.all_chars PyStr.isspace line.

(** A comment line of a spec file: '#' is its first character after the
    leading whitespace. *)
Definition comment_line (line : string) : bool :=
  PyStr.startswith (PyStr.lstrip line) "#".

Definition javadoc_name (pkg : string) : bool :=
  PyStr.endswith pkg "-javadoc".

(** The declared packages whose name ends in '-javadoc', in order. *)
Definition javadoc_subpackages (spec : SpecFile) : list string :=
  filter javadoc_name (packages spec).

(** No declared package has a name ending in '-javadoc'. *)
Definition no_javadoc (spec : SpecFile) : Prop :=
  forall q, In q (packages spec) -> javadoc_name q = false.

(** [pkg] is the first declared package whose name ends in '-javadoc'. *)
Definition first_javadoc (spec : SpecFile) (pkg : string) : Prop :=
  exists pre post,
    packages spec = (pre ++ pkg :: post)%list /\
    (forall q, In q pre -> javadoc_name q = false) /\
    javadoc_name pkg = true.

(** The Maven marker is in some build-requirement. *)
Definition maven_marker (spec : SpecFile) : Prop :=
  exists br, In br (build_requires spec) /\
             PyStr.contains "maven-local" br = true.

(** The pattern is found in some line of the spec text. *)
Definition found_in_spec (p : Re.pattern) (spec : SpecFile) : Prop :=
  exists line, In line (lines spec) /\ Re.search p line = true.

(** Some string of [reqs] contains some token of [tokens]. *)
Definition token_within (tokens reqs : list string) : Prop :=
  exists x r, In x tokens /\ In r reqs /\ PyStr.contains x r = true.

(** Some string of [reqs] is a token of [tokens]. *)
Definition token_listed (tokens reqs : list string) : Prop :=
  exists x, In x tokens /\ In x reqs.

(** A file of the package [pkg] matches the glob. *)
Definition file_matching (rpms : RpmsSource) (pkg glob : string) : Prop :=
  exists f, In f (filelist rpms pkg) /\ fnmatch f glob = true.

(** A file of some built package matches the glob. *)
Definition built_file_matching (rpms : RpmsSource) (glob : string) : Prop :=
  exists pkg, In pkg (containers rpms) /\ file_matching rpms pkg glob.

(** A glob without [*] and [?]: it matches its own text only. *)
Definition plain (w : string) : bool :=
  PyStr.all_chars
    (fun c => negb (Ascii.eqb c "*") && negb (Ascii.eqb c "?")) w.

(** The built packages with one more file in [pkg]. *)
Definition with_file (pkg f : string) (rpms : RpmsSource) : RpmsSource :=
  {| containers := containers rpms;
     filelist := fun p => if String.eqb p pkg then f :: filelist rpms p
                          else filelist rpms p |}.

(** The tag of [pkg] expands and reads 'noarch' in lower case. *)
Definition noarch_tag (spec : SpecFile) (pkg : string) : Prop :=
  exists a, expand_tag spec "arch" pkg = Some a /\ PyStr.lower a = "noarch".

(** In the backward scan, [p] is a line the pivot is found in once the
    trigger has been seen: the trigger is found in [p] itself or in one of
    the lines [after] it. *)
Definition pivot_hit (trigger pivot : string -> bool) (p : string)
           (after : list string) : Prop :=
  pivot p = true /\ exists t, In t (p :: after) /\ trigger t = true.

(** No line of [section] is such a line. *)
Definition no_pivot_hit (trigger pivot : string -> bool)
           (section : list string) : Prop :=
  forall a q b, section = (a ++ q :: b)%list -> ~ pivot_hit trigger pivot q b.

(** A line the scan passes over once the pivot has been found: a blank
    line, or one more line the pivot is found in. *)
Definition passed_over (pivot : string -> bool) (line : string) : Prop :=
  blank line = true \/ pivot line = true.

End Terms.

(* ================================================================== *)
(** ** Sample packages *)
(* ================================================================== *)

Module Samples.

(** A spec view of a package 'foo', version '1.0'. *)
Definition spec_of (brs pkgs text : list string)
           (reqs : option string -> list string)
           (tags : string -> string -> option string) : SpecFile :=
  {| name := "foo"; version := "1.0"; build_requires := brs;
     packages := pkgs; lines := text; get_requires := reqs;
     expand_tag := tags |}.

Definition no_requires : option string -> list string := fun _ => [].

Definition all_noarch : string -> string -> option string :=
  fun _ _ => Some "noarch".

(** A Maven package built with the XMvn macros. *)
Definition maven_xmvn_spec : SpecFile :=
  spec_of ["maven-local"] ["foo"; "foo-javadoc"]
          ["%build"; "%mvn_build -f"; "%install"; "%mvn_install"]
          no_requires all_noarch.

(** A Maven package built the old way. *)
Definition maven_old_spec : SpecFile :=
  spec_of ["maven-local"] ["foo"; "foo-javadoc"]
          ["%build"; "mvn-rpmbuild install"]
          no_requires all_noarch.

(** A package without the Maven marker whose spec text has the XMvn
    macros all the same. *)
Definition ant_xmvn_spec : SpecFile :=
  spec_of ["ant"] ["foo"]
          ["%build"; "%mvn_build"]
          no_requires all_noarch.

(** A Maven package that build-requires the packaging tools itself. *)
Definition maven_tools_spec : SpecFile :=
  spec_of ["maven-local"; "javapackages-tools"] ["foo"; "foo-javadoc"]
          ["%build"; "%mvn_build -f"]
          no_requires all_noarch.

(** A package built with ant that names the packaging tools on both
    sides, and one that names them on neither. *)
Definition ant_tools_spec : SpecFile :=
  spec_of ["ant"; "javapackages-local"] ["foo"]
          ["%build"; "ant jar"]
          (fun _ => ["jpackage-utils"]) all_noarch.

Definition ant_spec : SpecFile :=
  spec_of ["ant"] ["foo"]
          ["%build"; "ant jar"]
          no_requires all_noarch.

(** An old-style Maven package that registers its POM. *)
Definition depmap_spec : SpecFile :=
  spec_of ["maven-local"] ["foo"]
          ["%install"; "%add_maven_depmap JPP-foo.pom foo.jar"]
          no_requires all_noarch.

(** Built packages with a POM file, and without one. *)
Definition pom_rpms : RpmsSource :=
  {| containers := ["foo"];
     filelist := fun _ => ["/usr/share/java/foo.jar";
                           "/usr/share/maven-poms/foo.pom"] |}.

Definition no_pom_rpms : RpmsSource :=
  {| containers := ["foo"];
     filelist := fun _ => ["/usr/share/java/foo.jar";
                           "/usr/share/doc/foo/README"] |}.

(** A package with two javadoc subpackages. *)
Definition two_javadoc_spec : SpecFile :=
  spec_of ["maven-local"] ["foo"; "foo-javadoc"; "foo-extras-javadoc"]
          ["%build"; "%mvn_build"]
          no_requires all_noarch.

(** A package whose javadoc subpackage requires the packaging tools. *)
Definition javadoc_tools_spec : SpecFile :=
  spec_of ["maven-local"] ["foo"; "foo-javadoc"]
          ["%build"; "%mvn_build"]
          (fun pkg => match pkg with
                      | Some _ => ["java-headless"; "jpackage-utils"]
                      | None => ["java-headless"]
                      end)
          all_noarch.

(** A package built with ant, every requires list of which names the
    packaging tools with a version constraint. *)
Definition versioned_req_spec : SpecFile :=
  spec_of ["ant"; "javapackages-local"] ["foo"; "foo-javadoc"]
          ["%build"; "ant jar javadoc"]
          (fun _ => ["javapackages-tools >= 1.0"]) all_noarch.

(** Built packages with the javadoc of 'foo' at the canonical place. *)
Definition javadoc_rpms : RpmsSource :=
  {| containers := ["foo"; "foo-javadoc"];
     filelist := fun pkg =>
       if String.eqb pkg "foo-javadoc"
       then ["/usr/share/javadoc/foo/index.html";
             "/usr/share/javadoc/foo/package-list"]
       else ["/usr/share/java/foo.jar"] |}.

(** A package with a subpackage built for one architecture, and one with a
    subpackage whose architecture tag does not expand. *)
Definition jni_spec : SpecFile :=
  spec_of ["maven-local"] ["foo"; "foo-native"; "foo-javadoc"]
          ["%build"; "%mvn_build"] no_requires
          (fun _ pkg => if String.eqb pkg "foo-native" then Some "x86_64"
                        else Some "NoArch").

Definition untagged_spec : SpecFile :=
  spec_of ["maven-local"] ["foo"; "foo-javadoc"]
          ["%build"; "%mvn_build"] no_requires
          (fun _ pkg => if String.eqb pkg "foo" then Some "noarch" else None).

(** The patterns of the docstring of [_search_previous_line]:
    '-Dmaven.test.skip' is the trigger, 'mvn-rpmbuild' the pivot and '^#',
    any comment, the judge. *)
Definition skip_re : Re.pattern :=
  Re.Pattern false
    (Re.Cat (Re.Str "-Dmaven")
       (Re.Cat (Re.Atom Re.AnyChar)
          (Re.Cat (Re.Str "test")
             (Re.Cat (Re.Atom Re.AnyChar) (Re.Str "skip")))))
    false false.

Definition mvn_re : Re.pattern :=
  Re.Pattern false (Re.Str "mvn-rpmbuild") false false.

Definition comment_re : Re.pattern :=
  Re.Pattern true (Re.Str "#") false false.

(** A build section that explains why the tests are skipped, the same
    without the comment, and one with two mvn-rpmbuild lines. *)
Definition commented_build : list string :=
  ["# reason"; "mvn-rpmbuild -Dmaven.test.skip"].

Definition bare_build : list string :=
  ["mvn-rpmbuild -Dmaven.test.skip"].

Definition two_step_build : list string :=
  ["# reason"; "mvn-rpmbuild -o dependency:resolve";
   "mvn-rpmbuild -Dmaven.test.skip"].

(** A package converted to XMvn whose spec text still names mvn-rpmbuild,
    in a comment. *)
Definition commented_out_spec : SpecFile :=
  spec_of ["maven-local"] ["foo"; "foo-javadoc"]
          ["%build"; "# mvn-rpmbuild install javadoc:aggregate";
           "%mvn_build"]
          no_requires all_noarch.

(** A build section with the tests skipped and no comment above the
    command, and one that does not skip the tests. *)
Definition uncommented_build : list string :=
  ["%ant jar"; "  "; "mvn-rpmbuild -Dmaven.test.skip"].

Definition plain_build : list string :=
  ["# build it"; "mvn-rpmbuild install"].

(** [_search_previous_line] with the patterns of its docstring, on a check
    that is unevaluated. *)
Definition docstring_scan (section : list string) : option bool * check :=
  _search_previous_line unevaluated section
    (Re.search skip_re) (Re.search mvn_re) (Re.search comment_re).

End Samples.

(* ================================================================== *)
(** ** The other checks of the plugin *)
(* ================================================================== *)

Module ReMore.

(** r+ *)
Definition Plus (r : Re.regex) : Re.regex := Re.Cat r (Re.Star r).

End ReMore.

Module HostMore.

(** Modelled from the spec: the scriptlet text of the built packages, what
    [rpms.get(pkg).post] and [rpms.get(pkg).postun] hold; [None] for a
    package without the scriptlet. *)
Record Scriptlets : Type := {
  post : string -> option string;
  postun : string -> option string
}.

(** [sep.join(l)] *)
Fixpoint join (sep : string) (l : list string) : string :=
  match l with
  | [] => EmptyString
  | x :: rest =>
      match rest with
      | [] => x
      | _ :: _ => x ++ sep ++ join sep rest
      end
  end.

End HostMore.

Import HostMore.

(** *** CheckNoOldMavenDepmap *)

Module CheckNoOldMavenDepmap.

(** re.compile(r'^\s*%add_to_maven_depmap\s+.*') *)
Definition regex : Re.pattern :=
  Re.Pattern true
    (Re.Cat (Re.Star (Re.Atom Re.Space))
       (Re.Cat (Re.Str "%add_to_maven_depmap")
          (Re.Cat (ReMore.Plus (Re.Atom Re.Space))
                  (Re.Star (Re.Atom Re.AnyChar)))))
    false false.

Definition run_on_applicable (spec : SpecFile) (self : check) : check :=
  set_passed (Flag (negb (PyStr.truthy_opt (find_re regex spec)))) None self.

End CheckNoOldMavenDepmap.

(** *** CheckUseMavenpomdirMacro *)

Module CheckUseMavenpomdirMacro.

(** re.compile('%{_datadir}/maven2/poms'); a brace that opens no repeat
    count stands for itself. *)
Definition regex : Re.pattern :=
  Re.Pattern false (Re.Str "%{_datadir}/maven2/poms") false false.

Definition run (spec : SpecFile) (rpms : RpmsSource) (self : check)
  : check :=
  if negb (PyStr.truthy_opt (find "*.pom" None rpms)) then
    set_passed (Verdict NA) None self
  else
    set_passed (Flag (negb (PyStr.truthy_opt (find_re regex spec)))) None
               self.

End CheckUseMavenpomdirMacro.

(** *** CheckUpdateDepmap *)

Module CheckUpdateDepmap.

(** re.compile(r'^\s*%update_maven_depmap\s+.*') *)
Definition regex : Re.pattern :=
  Re.Pattern true
    (Re.Cat (Re.Star (Re.Atom Re.Space))
       (Re.Cat (Re.Str "%update_maven_depmap")
          (Re.Cat (ReMore.Plus (Re.Atom Re.Space))
                  (Re.Star (Re.Atom Re.AnyChar)))))
    false false.

Definition run (spec : SpecFile) (rpms : RpmsSource) (self : check)
  : check :=
  if negb (PyStr.truthy_opt (find "*.pom" None rpms)) then
    set_passed (Verdict NA) None self
  else
    set_passed (Flag (negb (PyStr.truthy_opt (find_re regex spec)))) None
               self.

End CheckUpdateDepmap.

(** *** CheckNoRequiresPost *)

Module CheckNoRequiresPost.

(** [_find]: True if [what] is part of an item of the list [where]; items
    that are false ([None], the empty text) are skipped. *)
Fixpoint _find (what : string) (where_ : list (option string)) : bool :=
  match where_ with
  | [] => false
  | item :: rest =>
      match item with
      | None => _find what rest
      | Some text =>
          if negb (PyStr.truthy text) then _find what rest
          else if PyStr.contains what text then true
               else _find what rest
      end
  end.

(** The loop over the declared packages, which appends to [bad_ones]. *)
Fixpoint for_packages (scripts : Scriptlets) (pkgs bad_ones : list string)
  : list string :=
  match pkgs with
  | [] => bad_ones
  | pkg_name :: rest =>
      if _find "jpackage-utils"
               [post scripts pkg_name; postun scripts pkg_name]
      then for_packages scripts rest (bad_ones ++ [pkg_name])%list
      else for_packages scripts rest bad_ones
  end.

Definition run (spec : SpecFile) (rpms : RpmsSource) (scripts : Scriptlets)
           (self : check) : check :=
  if negb (PyStr.truthy_opt (find "*.pom" None rpms)) then
    set_passed (Verdict NA) None self
  else
    let bad_ones := for_packages scripts (packages spec) [] in
    let txt :=
      if truthy_list bad_ones
      then "jpackage-utils post/postun in " ++ join ", " bad_ones
      else EmptyString in
    set_passed (Verdict (if PyStr.truthy txt then FAIL else PASS))
               (Some txt) self.

End CheckNoRequiresPost.

(** *** CheckTestSkip *)

Module CheckTestSkip.

(** re.compile(r'\s+-Dmaven.test.skip.*') *)
Definition skip_regex : Re.pattern :=
  Re.Pattern false
    (Re.Cat (ReMore.Plus (Re.Atom Re.Space))
       (Re.Cat (Re.Str "-Dmaven")
          (Re.Cat (Re.Atom Re.AnyChar)
             (Re.Cat (Re.Str "test")
                (Re.Cat (Re.Atom Re.AnyChar)
                   (Re.Cat (Re.Str "skip")
                           (Re.Star (Re.Atom Re.AnyChar))))))))
    false false.

(** re.compile(r'mvn-build\s+.*(-f|--force|--skip-tests).*') *)
Definition xmvn_skip_regex : Re.pattern :=
  Re.Pattern false
    (Re.Cat (Re.Str "mvn-build")
       (Re.Cat (ReMore.Plus (Re.Atom Re.Space))
          (Re.Cat (Re.Star (Re.Atom Re.AnyChar))
             (Re.Cat (Re.Alt (Re.Str "-f")
                             (Re.Alt (Re.Str "--force")
                                     (Re.Str "--skip-tests")))
                     (Re.Star (Re.Atom Re.AnyChar))))))
    false false.

Definition pending_text : string :=
  "Tests seem to be skipped. Verify" ++ nl ++
  "        there is a commment giving a reason for this".

(** [get_section name raw] is the host's [spec.get_section]: the text of a
    section of the spec file, or [None]. *)
Definition run (get_section : string -> bool -> option string)
           (self : check) : check :=
  let build_section := get_section "%build" true in
  match build_section with
  | Some text =>
      if PyStr.truthy text
         && (Re.search skip_regex text || Re.search xmvn_skip_regex text)
      then set_passed (Verdict PENDING) (Some pending_text) self
      else set_passed (Verdict NA) None self
  | None => set_passed (Verdict NA) None self
  end.

End CheckTestSkip.

(* ================================================================== *)
(** ** Vocabulary for the other checks *)
(* ================================================================== *)

Module MoreTerms.

(** The line invokes the macro: the macro is the first thing on the line
    after the leading whitespace, and a whitespace character follows it. *)
Definition invokes (macro line : string) : Prop :=
  exists c rest,
    PyStr.lstrip line = macro ++ String c rest /\ PyStr.isspace c = true.

Definition invoked_in_spec (macro : string) (spec : SpecFile) : Prop :=
  exists line, In line (lines spec) /\ invokes macro line.

(** The text occurs in some line of the spec, as it is written. *)
Definition occurs_in_spec (w : string) (spec : SpecFile) : Prop :=
  exists line, In line (lines spec) /\ PyStr.contains w line = true.

Definition not_newline (c : ascii) : bool := negb (Ascii.eqb c Re.newline).

(** Somewhere in the text a whitespace character is followed at once by
    '-Dmaven', one character, 'test', one character, 'skip'; neither of the
    two characters is a newline. *)
Definition skip_flag_in (text : string) : Prop :=
  exists pre c a b rest,
    text = pre ++ String c ("-Dmaven" ++ String a ("test" ++ String b
                             ("skip" ++ rest))) /\
    PyStr.isspace c = true /\ not_newline a = true /\ not_newline b = true.

(** Somewhere in the text 'mvn-build' is followed by whitespace and then,
    with no newline in between, by one of the flags. *)
Definition forced_build_in (text : string) : Prop :=
  exists pre ws mid flag rest,
    text = pre ++ "mvn-build" ++ ws ++ mid ++ flag ++ rest /\
    ws <> "" /\ PyStr.all_chars PyStr.isspace ws = true /\
    PyStr.all_chars not_newline mid = true /\
    In flag ["-f"; "--force"; "--skip-tests"].

(** 'jpackage-utils' is in the post or the postun scriptlet of [pkg]. *)
Definition in_scriptlet (o : option string) : bool :=
  match o with
  | Some text => PyStr.contains "jpackage-utils" text
  | None => false
  end.

Definition offending (scripts : Scriptlets) (pkg : string) : bool :=
  in_scriptlet (post scripts pkg) || in_scriptlet (postun scripts pkg).

(** A text without the characters a glob reads as more than themselves. *)
Definition no_glob_chars (w : string) : bool :=
  PyStr.all_chars
    (fun c => negb (Ascii.eqb c "*") && negb (Ascii.eqb c "?")
              && negb (Ascii.eqb c "["))
    w.

(** A file of the package lies under the directory. *)
Definition file_under (rpms : RpmsSource) (pkg dir : string) : Prop :=
  exists f, In f (filelist rpms pkg) /\ PyStr.startswith f dir = true.

End MoreTerms.

(* ================================================================== *)
(** ** More sample packages *)
(* ================================================================== *)

Module MoreSamples.
Import Samples.

(** A spec that calls the two deprecated depmap macros, and one that has
    them in comments only. *)
Definition old_macros_spec : SpecFile :=
  spec_of ["maven-local"] ["foo"]
          ["%install";
           "  %add_to_maven_depmap org.foo foo 1.0 JPP foo";
           "%post"; "%update_maven_depmap -v";
           "cp foo.pom %{buildroot}%{_datadir}/maven2/poms/JPP-foo.pom"]
          no_requires all_noarch.

Definition old_macros_commented_spec : SpecFile :=
  spec_of ["maven-local"] ["foo"]
          ["%install";
           "# %add_to_maven_depmap org.foo foo 1.0 JPP foo";
           "#%update_maven_depmap -v"; "%mvn_install"]
          no_requires all_noarch.

(** A spec file of comment lines. *)
Definition only_comments_spec : SpecFile :=
  spec_of [] ["foo"]
          ["# %add_to_maven_depmap org.foo foo 1.0 JPP foo";
           "  # to be written"]
          no_requires all_noarch.

(** A package with three subpackages, and scriptlets for them: none at
    all, and the old depmap scriptlets in two of the three. *)
Definition scripted_spec : SpecFile :=
  spec_of ["maven-local"] ["foo"; "foo-javadoc"; "foo-extras"]
          ["%build"; "%mvn_build"] no_requires all_noarch.

Definition no_scripts : Scriptlets :=
  {| post := fun _ => None; postun := fun _ => None |}.

Definition depmap_scripts : Scriptlets :=
  {| post := fun pkg =>
       if String.eqb pkg "foo"
       then Some "Requires(post): jpackage-utils"
       else if String.eqb pkg "foo-javadoc" then Some ""
            else None;
     postun := fun pkg =>
       if String.eqb pkg "foo-extras"
       then Some "Requires(postun): jpackage-utils"
       else None |}.

(** A spec file whose raw %build section is the given text. *)
Definition section_of (text : string) : string -> bool -> option string :=
  fun section_name raw =>
    if String.eqb section_name "%build" && raw then Some text else None.

(** The ant package that names the packaging tools on both sides, with its
    spec moved to the XMvn macros. *)
Definition ant_tools_xmvn_spec : SpecFile :=
  spec_of ["ant"; "javapackages-local"] ["foo"]
          ["%build"; "%mvn_build"; "%install"; "%mvn_install"]
          (fun _ => ["jpackage-utils"]) all_noarch.

End MoreSamples.

(* ================================================================== *)
(** ** Facts about the text primitives *)
(* ================================================================== *)

Module PyStrFacts.
Import PyStr.

Lemma app_nil_r (s : string) : s ++ "" = s.
Proof. induction s as [|c s IH]; simpl; [reflexivity | now rewrite IH]. Qed.

Lemma app_assoc (a b c : string) : (a ++ b) ++ c = a ++ (b ++ c).
Proof. induction a as [|x a IH]; simpl; [reflexivity | now rewrite IH]. Qed.

Lemma app_eq_nil (a b : string) : a ++ b = "" -> a = "" /\ b = "".
Proof. destruct a; simpl; [auto | discriminate]. Qed.

Lemma startswith_spec (s p : string) :
  startswith s p = true <-> exists post, s = p ++ post.
Proof.
  revert s; induction p as [|a p IH]; intros s; simpl.
  - split; [intros _; now exists s | reflexivity].
  - destruct s as [|b s].
    + split; [discriminate | intros [post H]; discriminate].
    + rewrite andb_true_iff, Ascii.eqb_eq, IH. split.
      * intros [-> [post ->]]. now exists post.
      * intros [post H]. injection H as -> ->.
        split; [reflexivity | now exists post].
Qed.

Lemma contains_spec (w s : string) :
  contains w s = true <-> exists pre post, s = pre ++ w ++ post.
Proof.
  induction s as [|c s IH]; simpl.
  - rewrite orb_false_r, startswith_spec. split.
    + intros [post H]. now exists "", post.
    + intros [pre [post H]]. symmetry in H.
      apply app_eq_nil in H as [-> H]. now exists post.
  - rewrite orb_true_iff, startswith_spec, IH. split.
    + intros [[post H] | [pre [post H]]].
      * now exists "", post.
      * exists (String c pre), post. simpl. now rewrite H.
    + intros [pre [post H]]. destruct pre as [|d pre]; simpl in H.
      * left. now exists post.
      * injection H as -> ->. right. now exists pre, post.
Qed.

Lemma endswith_spec (s p : string) :
  endswith s p = true <-> exists pre, s = pre ++ p.
Proof.
  induction s as [|c s IH]; cbn [endswith].
  - rewrite orb_false_r, String.eqb_eq. split.
    + intros <-. now exists "".
    + intros [pre H]. symmetry in H. now apply app_eq_nil in H as [_ ->].
  - rewrite orb_true_iff, String.eqb_eq, IH. split.
    + intros [<- | [pre ->]]; [now exists "" | now exists (String c pre)].
    + intros [pre H]. destruct pre as [|d pre]; simpl in H.
      * now left.
      * injection H as -> ->. right. now exists pre.
Qed.

Lemma mem_spec (x : string) (l : list string) :
  mem x l = true <-> In x l.
Proof.
  unfold mem. rewrite existsb_exists. split.
  - intros [y [Hin Heq]]. apply String.eqb_eq in Heq. now subst.
  - intros Hin. exists x. split; [assumption | apply String.eqb_refl].
Qed.

Lemma all_chars_app (p : ascii -> bool) (a b : string) :
  all_chars p (a ++ b) = all_chars p a && all_chars p b.
Proof.
  induction a as [|c a IH]; simpl; [reflexivity|].
  now rewrite IH, andb_assoc.
Qed.

Lemma lower_app (a b : string) : lower (a ++ b) = lower a ++ lower b.
Proof. induction a as [|c a IH]; simpl; [reflexivity | now rewrite IH]. Qed.

(** A lowered text splits where the text does. *)
Lemma lower_split (s x y : string) :
  lower s = x ++ y -> exists a b, s = a ++ b /\ lower a = x /\ lower b = y.
Proof.
  revert s; induction x as [|c x IH]; intros s H; simpl in H.
  - now exists "", s.
  - destruct s as [|d s]; simpl in H; [discriminate|].
    injection H as Hc H. destruct (IH _ H) as [a [b [-> [Ha Hb]]]].
    exists (String d a), b. simpl. now rewrite Hc, Ha, Hb.
Qed.

Lemma isspace_lower_char (c : ascii) : isspace (lower_char c) = isspace c.
Proof. destruct c as [[] [] [] [] [] [] [] []]; reflexivity. Qed.

Lemma all_space_lower (s : string) :
  all_chars isspace (lower s) = all_chars isspace s.
Proof.
  induction s as [|c s IH]; simpl; [reflexivity|].
  now rewrite isspace_lower_char, IH.
Qed.

Lemma rstrip_cons_not_space (c : ascii) (s : string) :
  isspace c = false -> rstrip (String c s) <> "".
Proof.
  intros Hc. simpl. destruct (rstrip s); [rewrite Hc|]; discriminate.
Qed.

(** A line with a character that is no whitespace does not strip to the
    empty string. *)
Lemma strip_truthy (s : string) :
  all_chars isspace s = false -> truthy (strip s) = true.
Proof.
  unfold strip. induction s as [|c s IH]; simpl; [discriminate|].
  destruct (isspace c) eqn:Hc; simpl; [exact IH|]. intros _.
  pose proof (rstrip_cons_not_space c s Hc) as H. simpl in H.
  destruct (match rstrip s with
            | "" => if isspace c then "" else String c ""
            | String a s0 => String c (String a s0)
            end); [congruence | reflexivity].
Qed.

(** A text in which something that does not begin with whitespace occurs
    is not blank. *)
Lemma contains_not_blank (c : ascii) (w s : string) :
  isspace c = false -> contains (String c w) s = true ->
  all_chars isspace s = false.
Proof.
  intros Hc H. apply contains_spec in H as [pre [post ->]].
  rewrite all_chars_app. simpl. rewrite Hc. apply andb_false_r.
Qed.

End PyStrFacts.

(* ================================================================== *)
(** ** The matcher finds exactly the matches *)
(* ================================================================== *)

Module ReFacts.
Import PyStr PyStrFacts Re.

Lemma matches_nil_nullable ci r s :
  matches ci r s -> s = "" -> nullable r = true.
Proof.
  induction 1 as [ | a d Ha | r1 r2 u v _ IH1 _ IH2 | r1 r2 u _ IH
                   | r1 r2 u _ IH | r | r u v _ _ _ _ ]; intros E; simpl;
    try reflexivity; try discriminate.
  - apply app_eq_nil in E as [-> ->]. now rewrite IH1, IH2.
  - now rewrite IH.
  - rewrite IH by assumption. apply orb_true_r.
Qed.

Lemma nullable_matches ci r : nullable r = true <-> matches ci r "".
Proof.
  split; [|intros H; now apply (matches_nil_nullable ci r "")].
  induction r as [ | | a | r1 IH1 r2 IH2 | r1 IH1 r2 IH2 | r IH]; simpl;
    intros H; try discriminate.
  - constructor.
  - apply andb_true_iff in H as [H1 H2].
    change "" with ("" ++ ""). constructor; auto.
  - apply orb_true_iff in H as [H1 | H2];
      [apply m_alt_l | apply m_alt_r]; auto.
  - constructor.
Qed.

Lemma deriv_sound ci d r s :
  matches ci (deriv ci d r) s -> matches ci r (String d s).
Proof.
  revert s.
  induction r as [ | | a | r1 IH1 r2 IH2 | r1 IH1 r2 IH2 | r IH]; simpl;
    intros s H.
  - inversion H.
  - inversion H.
  - destruct (atom_matches ci a d) eqn:Ha; inversion H; subst.
    now constructor.
  - destruct (nullable r1) eqn:Hn.
    + inversion H as [ | | | ? ? ? H1 | ? ? ? H2 | | ]; subst.
      * inversion H1 as [ | | ? ? u v Hu Hv | | | | ]; subst.
        change (String d (u ++ v)) with (String d u ++ v).
        constructor; auto.
      * change (String d s) with ("" ++ String d s).
        constructor; [now apply nullable_matches | auto].
    + inversion H as [ | | ? ? u v Hu Hv | | | | ]; subst.
      change (String d (u ++ v)) with (String d u ++ v).
      constructor; auto.
  - inversion H; subst; [apply m_alt_l | apply m_alt_r]; auto.
  - inversion H as [ | | ? ? u v Hu Hv | | | | ]; subst.
    change (String d (u ++ v)) with (String d u ++ v).
    constructor; auto.
Qed.

Lemma deriv_complete ci r t :
  matches ci r t -> forall d s, t = String d s -> matches ci (deriv ci d r) s.
Proof.
  induction 1 as [ | a c Ha | r1 r2 u v H1 IH1 H2 IH2 | r1 r2 u _ IH
                   | r1 r2 u _ IH | r | r u v H1 IH1 H2 IH2 ];
    intros d s E; simpl.
  - discriminate.
  - injection E as -> <-. rewrite Ha. constructor.
  - destruct u as [|c u]; simpl in E.
    + subst v. rewrite (matches_nil_nullable ci r1 "" H1 eq_refl).
      apply m_alt_r. now apply IH2.
    + injection E as -> <-.
      assert (Hc : matches ci (Cat (deriv ci d r1) r2) (u ++ v))
        by (constructor; [now apply IH1 | assumption]).
      destruct (nullable r1); [now apply m_alt_l | assumption].
  - apply m_alt_l. now apply IH.
  - apply m_alt_r. now apply IH.
  - discriminate.
  - destruct u as [|c u]; simpl in E.
    + now apply IH2.
    + injection E as -> <-. constructor; [now apply IH1 | assumption].
Qed.

Lemma deriv_matches ci d r s :
  matches ci (deriv ci d r) s <-> matches ci r (String d s).
Proof.
  split; [apply deriv_sound | intros H; now apply (deriv_complete ci r _ H)].
Qed.

Lemma match_here_spec ci ok r s :
  match_here ci ok r s = true <->
  exists u v, s = u ++ v /\ matches ci r u /\ ok v = true.
Proof.
  revert r; induction s as [|c s IH]; intros r; simpl.
  - rewrite orb_false_r, andb_true_iff, (nullable_matches ci). split.
    + intros [H1 H2]. exists "", "". auto.
    + intros [u [v [E [Hu Hv]]]]. symmetry in E.
      apply app_eq_nil in E as [-> ->]. auto.
  - rewrite orb_true_iff, andb_true_iff, (nullable_matches ci), IH. split.
    + intros [[H1 H2] | [u [v [-> [Hu Hv]]]]].
      * now exists "", (String c s).
      * exists (String c u), v. split; [reflexivity|].
        split; [now apply deriv_matches | assumption].
    + intros [u [v [E [Hu Hv]]]]. destruct u as [|d u]; simpl in E.
      * subst v. now left.
      * injection E as <- ->. right. exists u, v.
        split; [reflexivity|]. split; [now apply deriv_matches | assumption].
Qed.

Lemma match_anywhere_spec ci ok r s :
  match_anywhere ci ok r s = true <->
  exists pre u v, s = pre ++ u ++ v /\ matches ci r u /\ ok v = true.
Proof.
  induction s as [|c s IH]; cbn [match_anywhere].
  - rewrite orb_false_r, match_here_spec. split.
    + intros [u [v [E H]]]. now exists "", u, v.
    + intros [pre [u [v [E H]]]]. symmetry in E.
      apply app_eq_nil in E as [-> E]. now exists u, v.
  - rewrite orb_true_iff, match_here_spec, IH. split.
    + intros [[u [v [E H]]] | [pre [u [v [E H]]]]].
      * now exists "", u, v.
      * exists (String c pre), u, v. simpl. now rewrite E.
    + intros [pre [u [v [E H]]]]. destruct pre as [|d pre]; simpl in E.
      * left. now exists u, v.
      * injection E as <- ->. right. now exists pre, u, v.
Qed.

(** A run of literal characters matches its own text and nothing else, up
    to case when IGNORECASE is set. *)
Lemma matches_Str ci w u :
  matches ci (Str w) u <-> fold_case ci u = fold_case ci w.
Proof.
  revert u; induction w as [|c w IH]; intros u; simpl.
  - split.
    + intros H. inversion H. reflexivity.
    + intros H. assert (u = "") as ->
        by (destruct ci, u; simpl in H; congruence). constructor.
  - split.
    + intros H. inversion H as [ | | ? ? a b Ha Hb | | | | ]; subst.
      inversion Ha as [ | ? d Hd | | | | | ]; subst.
      apply IH in Hb. simpl in Hd.
      destruct ci; simpl in *.
      * apply Ascii.eqb_eq in Hd. now rewrite Hb, Hd.
      * apply Ascii.eqb_eq in Hd. now rewrite Hb, Hd.
    + intros H. destruct u as [|d u];
        [destruct ci; simpl in H; discriminate|].
      change (String d u) with (String d "" ++ u).
      assert (Hd : atom_matches ci (Lit c) d = true /\
                   fold_case ci u = fold_case ci w).
      { destruct ci; simpl in *; injection H as H1 H2; subst;
          (split; [apply Ascii.eqb_eq; congruence | congruence]). }
      destruct Hd as [Hd Hu]. constructor; [now constructor | now apply IH].
Qed.

Lemma fold_case_app ci a b :
  fold_case ci (a ++ b) = fold_case ci a ++ fold_case ci b.
Proof. destruct ci; simpl; [apply lower_app | reflexivity]. Qed.

Lemma fold_case_split ci s x y :
  fold_case ci s = x ++ y ->
  exists a b, s = a ++ b /\ fold_case ci a = x /\ fold_case ci b = y.
Proof.
  destruct ci; simpl; [apply lower_split | intros ->; now exists x, y].
Qed.

(** Somewhere in [s] a text occurs that reads as [w]. *)
Lemma occurs_spec ci w s :
  contains (fold_case ci w) (fold_case ci s) = true <->
  exists pre u post, s = pre ++ u ++ post /\ matches ci (Str w) u.
Proof.
  rewrite contains_spec. split.
  - intros [x [y E]].
    apply fold_case_split in E as [pre [t [-> [_ E]]]].
    apply fold_case_split in E as [u [post [-> [E _]]]].
    exists pre, u, post. split; [reflexivity | now apply matches_Str].
  - intros [pre [u [post [-> H]]]]. apply matches_Str in H.
    exists (fold_case ci pre), (fold_case ci post).
    now rewrite !fold_case_app, H.
Qed.

(** The pattern [[^h]*w], searched for: the leading [[^h]*] is free to match
    nothing, and the search is free to start anywhere, so the pattern is
    found exactly where [w] occurs. *)
Lemma search_skip_lit ci h w s :
  search (Pattern false (Cat (Star (Atom (NotLit h))) (Str w)) false ci) s
  = contains (fold_case ci w) (fold_case ci s).
Proof.
  apply eq_true_iff_eq. unfold search; simpl.
  rewrite match_anywhere_spec, occurs_spec. split.
  - intros [pre [u [v [-> [H _]]]]].
    inversion H as [ | | ? ? a b Ha Hb | | | | ]; subst.
    exists (pre ++ a), b, v. split; [|assumption].
    now rewrite !app_assoc.
  - intros [pre [u [post [-> H]]]]. exists pre, u, post.
    split; [reflexivity|]. split; [|reflexivity].
    change u with ("" ++ u). constructor; [constructor | assumption].
Qed.

(** The same for two such patterns joined by [|]. *)
Lemma search_skip_lit_alt ci h1 w1 h2 w2 s :
  search (Pattern false
            (Alt (Cat (Star (Atom (NotLit h1))) (Str w1))
                 (Cat (Star (Atom (NotLit h2))) (Str w2))) false ci) s
  = contains (fold_case ci w1) (fold_case ci s)
    || contains (fold_case ci w2) (fold_case ci s).
Proof.
  apply eq_true_iff_eq. unfold search; simpl.
  rewrite match_anywhere_spec, orb_true_iff, !occurs_spec. split.
  - intros [pre [u [v [-> [H _]]]]].
    inversion H as [ | | | ? ? ? H1 | ? ? ? H2 | | ]; subst;
      [left; inversion H1 as [ | | ? ? a b Ha Hb | | | | ]
      |right; inversion H2 as [ | | ? ? a b Ha Hb | | | | ]]; subst;
      (exists (pre ++ a), b, v; split; [now rewrite !app_assoc | assumption]).
  - intros [[pre [u [post [-> H]]]] | [pre [u [post [-> H]]]]];
      exists pre, u, post; (split; [reflexivity|]); (split; [|reflexivity]);
      [apply m_alt_l | apply m_alt_r];
      change u with ("" ++ u); (constructor; [constructor | assumption]).
Qed.

Lemma matches_star_space ci u :
  matches ci (Star (Atom Space)) u -> all_chars isspace u = true.
Proof.
  remember (Star (Atom Space)) as r eqn:Er. intros H; revert Er.
  induction H as [ | | | | | r | r u v H1 _ H2 IH2 ]; intros Er;
    try discriminate; [reflexivity|].
  injection Er as ->. rewrite all_chars_app, IH2 by reflexivity.
  inversion H1 as [ | a d Hd | | | | | ]; subst. simpl in *. now rewrite Hd.
Qed.

Lemma all_space_matches ci u :
  all_chars isspace u = true -> matches ci (Star (Atom Space)) u.
Proof.
  induction u as [|c u IH]; simpl; intros H; [constructor|].
  apply andb_true_iff in H as [Hc Hu].
  change (String c u) with (String c "" ++ u).
  constructor; [now constructor | auto].
Qed.

Lemma dollar_ok_space v : dollar_ok v = true -> all_chars isspace v = true.
Proof.
  destruct v as [|c [|d v]]; simpl; try discriminate; [reflexivity|].
  intros H. apply Ascii.eqb_eq in H. now subst.
Qed.

(** [^\s*$] is found in the lines that are blank, and in no other. *)
Lemma search_blank s :
  search (Pattern true (Star (Atom Space)) true false) s
  = all_chars isspace s.
Proof.
  apply eq_true_iff_eq. unfold search; simpl. rewrite match_here_spec. split.
  - intros [u [v [-> [Hu Hv]]]]. rewrite all_chars_app.
    apply matches_star_space in Hu. unfold end_ok in Hv; simpl in Hv.
    apply dollar_ok_space in Hv. now rewrite Hu, Hv.
  - intros H. exists s, "". rewrite app_nil_r.
    split; [reflexivity|]. split; [now apply all_space_matches | reflexivity].
Qed.

End ReFacts.

(* ================================================================== *)
(** ** Facts about the host operations and the shared predicates *)
(* ================================================================== *)

Module PluginFacts.
Import PyStr PyStrFacts Re ReFacts Terms.

Lemma existsb_find_some {A : Type} (f : A -> bool) (l : list A) :
  existsb f l = true <-> exists x, List.find f l = Some x.
Proof.
  induction l as [|a l IH]; simpl.
  - split; [discriminate | intros [x H]; discriminate].
  - destruct (f a); simpl; [split; [now exists a | reflexivity] | exact IH].
Qed.

Lemma existsb_same {A : Type} (f g : A -> bool) (l : list A) :
  (forall x, f x = g x) -> existsb f l = existsb g l.
Proof.
  intros H. induction l as [|a l IH]; simpl; [reflexivity|].
  now rewrite H, IH.
Qed.

(** When the pattern is found in no blank line, the truth value of what
    [find_re] returns says whether the pattern is found in some line. *)
Lemma find_re_truthy (p : pattern) (spec : SpecFile) :
  (forall l, search p l = true -> blank l = false) ->
  truthy_opt (find_re p spec) = existsb (search p) (lines spec).
Proof.
  intros Hp. unfold find_re.
  destruct (List.find (search p) (lines spec)) as [l|] eqn:Hf; simpl.
  - pose proof (find_some _ _ Hf) as [Hin Hl].
    rewrite (strip_truthy l (Hp l Hl)). symmetry.
    apply existsb_exists. now exists l.
  - symmetry. apply not_true_is_false. intros H.
    apply existsb_find_some in H as [x H]. congruence.
Qed.

Lemma existsb_found (p : pattern) (spec : SpecFile) :
  existsb (search p) (lines spec) = true <-> found_in_spec p spec.
Proof. unfold found_in_spec. apply existsb_exists. Qed.

(** What the XMvn pattern is found in: the lines in which '%mvn_build' or
    '%mvn_install' occurs, in any case and at any place. *)
Lemma xmvn_re_search (l : string) :
  search xmvn_re l
  = contains "%mvn_build" (lower l) || contains "%mvn_install" (lower l).
Proof. unfold xmvn_re. now rewrite search_skip_lit_alt. Qed.

Lemma xmvn_re_not_blank (l : string) :
  search xmvn_re l = true -> blank l = false.
Proof.
  rewrite xmvn_re_search. unfold blank. rewrite <- all_space_lower.
  intros H. apply orb_true_iff in H as [H | H];
    eapply contains_not_blank; try exact H; reflexivity.
Qed.

Lemma is_xmvn_iff (spec : SpecFile) :
  truthy_opt (_is_xmvn_pkg spec) = true <-> found_in_spec xmvn_re spec.
Proof.
  unfold _is_xmvn_pkg.
  rewrite (find_re_truthy _ _ xmvn_re_not_blank). apply existsb_found.
Qed.

Lemma is_maven_iff (spec : SpecFile) :
  _is_maven_pkg spec = true <-> maven_marker spec.
Proof. unfold _is_maven_pkg, maven_marker. apply existsb_exists. Qed.

(** What the depmap pattern is found in. *)
Lemma add_maven_depmap_re_search (l : string) :
  search CheckAddMavenDepmap.add_maven_depmap_re l
  = contains "%add_maven_depmap" (lower l).
Proof.
  unfold CheckAddMavenDepmap.add_maven_depmap_re.
  now rewrite search_skip_lit.
Qed.

Lemma add_maven_depmap_iff (spec : SpecFile) :
  truthy_opt (find_re CheckAddMavenDepmap.add_maven_depmap_re spec) = true
  <-> found_in_spec CheckAddMavenDepmap.add_maven_depmap_re spec.
Proof.
  rewrite find_re_truthy; [apply existsb_found|].
  intros l. rewrite add_maven_depmap_re_search. unfold blank.
  rewrite <- all_space_lower. intros H.
  eapply contains_not_blank; try exact H; reflexivity.
Qed.

(** What the mvn-rpmbuild pattern is found in. *)
Lemma mvn_rpmbuild_search (l : string) :
  search CheckMvnRpmbuild.mvn_rpmbuild l = contains "mvn-rpmbuild" l.
Proof.
  unfold CheckMvnRpmbuild.mvn_rpmbuild. now rewrite search_skip_lit.
Qed.

Lemma mvn_rpmbuild_truthy (spec : SpecFile) :
  truthy_opt (find_re CheckMvnRpmbuild.mvn_rpmbuild spec)
  = existsb (contains "mvn-rpmbuild") (lines spec).
Proof.
  rewrite find_re_truthy.
  - apply existsb_same. intros l. apply mvn_rpmbuild_search.
  - intros l. rewrite mvn_rpmbuild_search. intros H.
    eapply contains_not_blank; try exact H; reflexivity.
Qed.

(** [_get_javadoc_sub] returns the first javadoc subpackage. *)
Lemma get_javadoc_sub_first (spec : SpecFile) (pkg : string) :
  first_javadoc spec pkg -> _get_javadoc_sub spec = Some pkg.
Proof.
  unfold first_javadoc, _get_javadoc_sub.
  intros [pre [post [-> [Hpre Hpkg]]]].
  induction pre as [|q pre IH]; simpl.
  - unfold javadoc_name in Hpkg. now rewrite Hpkg.
  - pose proof (Hpre q (or_introl eq_refl)) as Hq.
    unfold javadoc_name in Hq. rewrite Hq.
    apply IH. intros r Hr. apply Hpre. now right.
Qed.

Lemma get_javadoc_sub_none (spec : SpecFile) :
  no_javadoc spec -> _get_javadoc_sub spec = None.
Proof.
  unfold no_javadoc, _get_javadoc_sub. intros H.
  destruct (List.find _ (packages spec)) as [q|] eqn:Hf; [|reflexivity].
  apply find_some in Hf as [Hin Hq]. apply H in Hin.
  unfold javadoc_name in Hin. congruence.
Qed.

(** The name of a javadoc subpackage is a true value. *)
Lemma javadoc_name_truthy (pkg : string) :
  javadoc_name pkg = true -> truthy pkg = true.
Proof. destruct pkg; [discriminate | reflexivity]. Qed.

Lemma truthy_list_filter {A : Type} (f : A -> bool) (l : list A) :
  truthy_list (filter f l) = existsb f l.
Proof.
  induction l as [|a l IH]; simpl; [reflexivity|].
  destruct (f a); simpl; [reflexivity | exact IH].
Qed.

Lemma find_all_truthy (rpms : RpmsSource) (pkg glob : string) :
  truthy_list (find_all glob (Some pkg) rpms) = true
  <-> file_matching rpms pkg glob.
Proof.
  unfold find_all, file_matching. rewrite truthy_list_filter.
  apply existsb_exists.
Qed.

(** A glob that the empty path does not match: the truth value of what
    [find] returns says whether some file matches. *)
Lemma find_truthy (rpms : RpmsSource) (c : option string) (glob : string) :
  fnmatch "" glob = false ->
  truthy_opt (find glob c rpms)
  = truthy_list (find_all glob c rpms).
Proof.
  intros Hg. unfold find.
  destruct (find_all glob c rpms) as [|f fs] eqn:Hf; simpl; [reflexivity|].
  assert (Hin : In f (find_all glob c rpms)) by (rewrite Hf; now left).
  unfold find_all in Hin. apply filter_In in Hin as [_ Hm].
  destruct f; [congruence | reflexivity].
Qed.

Lemma find_all_none_truthy (rpms : RpmsSource) (glob : string) :
  truthy_list (find_all glob None rpms) = true
  <-> built_file_matching rpms glob.
Proof.
  unfold find_all, built_file_matching, file_matching.
  rewrite truthy_list_filter, existsb_exists. split.
  - intros [f [Hin Hm]]. apply in_flat_map in Hin as [pkg [Hp Hf]].
    exists pkg. split; [assumption | now exists f].
  - intros [pkg [Hp [f [Hf Hm]]]]. exists f. split; [|assumption].
    apply in_flat_map. now exists pkg.
Qed.

(** Such a glob matches its own text only. *)
Lemma fnmatch_plain (w path : string) :
  plain w = true -> fnmatch path w = String.eqb path w.
Proof.
  unfold fnmatch, plain. revert path.
  induction w as [|c w IH]; intros path H; simpl in *.
  - now destruct path.
  - apply andb_true_iff in H as [Hc Hw].
    apply andb_true_iff in Hc as [H1 H2].
    apply negb_true_iff in H1, H2. rewrite H1.
    destruct path as [|d path]; [reflexivity|].
    rewrite H2; simpl. rewrite (IH path Hw), (Ascii.eqb_sym c d).
    reflexivity.
Qed.

(** [*w] for such a [w]: the paths that end with [w]. *)
Lemma fnmatch_star_plain (w path : string) :
  plain w = true -> fnmatch path (String "*" w) = endswith path w.
Proof.
  intros Hw. unfold fnmatch. cbn [fnmatch_pat]. cbv beta.
  change (Ascii.eqb "*" "*") with true. cbv iota.
  induction path as [|d path IH]; cbn [endswith].
  - change (fnmatch_pat w "") with (fnmatch "" w).
    now rewrite (fnmatch_plain w "" Hw).
  - rewrite <- IH.
    change (fnmatch_pat w (String d path)) with (fnmatch (String d path) w).
    now rewrite (fnmatch_plain w _ Hw).
Qed.

Lemma any_token_in_iff (tokens reqs : list string) :
  CheckJPackageRequires.any_token_in tokens reqs = true
  <-> token_within tokens reqs.
Proof.
  unfold CheckJPackageRequires.any_token_in, token_within.
  rewrite existsb_exists. split.
  - intros [x [Hx H]]. apply existsb_exists in H as [r [Hr H]].
    now exists x, r.
  - intros [x [r [Hx [Hr H]]]]. exists x. split; [assumption|].
    apply existsb_exists. now exists r.
Qed.

Lemma any_listed_iff (tokens reqs : list string) :
  existsb (fun x => mem x reqs) tokens = true <-> token_listed tokens reqs.
Proof.
  unfold token_listed. rewrite existsb_exists. split.
  - intros [x [Hx H]]. apply mem_spec in H. now exists x.
  - intros [x [Hx H]]. exists x. split; [assumption | now apply mem_spec].
Qed.

(** What is looked for as a whole entry is found within that entry. *)
Lemma contains_refl (x : string) : contains x x = true.
Proof. apply contains_spec. exists "", "". simpl. now rewrite app_nil_r. Qed.

Lemma token_listed_within (tokens reqs : list string) :
  token_listed tokens reqs -> token_within tokens reqs.
Proof.
  intros [x [Hx Hr]]. exists x, x. repeat split; try assumption.
  apply contains_refl.
Qed.

(** The tag value compared with 'noarch'. *)
Lemma is_noarch_iff (spec : SpecFile) (pkg : string) :
  CheckNoArch.is_noarch (CheckNoArch.lowered (expand_tag spec "arch" pkg))
  = true <-> noarch_tag spec pkg.
Proof.
  unfold noarch_tag, CheckNoArch.lowered.
  destruct (expand_tag spec "arch" pkg) as [a|]; simpl.
  - destruct a as [|c a];
      cbn [truthy_opt truthy option_map CheckNoArch.is_noarch].
    + split; [discriminate | intros [a [E H]]].
      injection E as <-. discriminate.
    + rewrite String.eqb_eq. split.
      * intros H. eexists. split; [reflexivity | exact H].
      * intros [b [E H]]. injection E as <-. exact H.
  - split; [discriminate | intros [a [E _]]; discriminate].
Qed.

(** *** The backward scan, phase by phase *)

Section BackwardScan.

Variables trigger pivot judge : string -> bool.
Variable self : check.

Lemma empty_regex_blank (line : string) :
  search empty_regex line = blank line.
Proof. unfold empty_regex, blank. apply search_blank. Qed.

(** As long as no line is a pivot line, the scan only takes note of the
    trigger. *)
Lemma scan_before_pivot (l rest : list string) :
  forall found_trigger,
    (forall a q b, l = (a ++ q :: b)%list ->
                   ~ (pivot q = true /\
                      (found_trigger = true \/
                       exists t, In t (q :: b) /\ trigger t = true))) ->
    scan_reversed trigger pivot judge (rev l ++ rest)%list
                  found_trigger false self
    = scan_reversed trigger pivot judge rest
                    (found_trigger || existsb trigger l) false self.
Proof.
  induction l as [|x l IH] using rev_ind; intros ft H.
  - simpl. now rewrite orb_false_r.
  - rewrite rev_app_distr. cbn [rev app].
    cbn [scan_reversed].
    assert (Hx : (if trigger x then true else ft) && pivot x = false).
    { apply not_true_is_false. intros Hc.
      apply andb_true_iff in Hc as [Hft Hp].
      apply (H l x [] eq_refl). split; [exact Hp|].
      destruct (trigger x) eqn:Ht; [right | now left].
      exists x. split; [now left | exact Ht]. }
    rewrite Hx. cbn [andb]. rewrite IH.
    + f_equal. rewrite existsb_app. simpl.
      destruct (trigger x), ft, (existsb trigger l); reflexivity.
    + intros a q b -> [Hp Hq]. apply (H a q (b ++ [x])%list).
      * now rewrite <- List.app_assoc.
      * split; [exact Hp|].
        destruct Hq as [Hq | [t [Hin Ht]]].
        -- destruct (trigger x) eqn:Hx'; [right | now left].
           exists x. split; [|exact Hx'].
           right. apply in_or_app. right. now left.
        -- right. exists t. split; [|exact Ht].
           destruct Hin as [<- | Hin]; [now left|].
           right. apply in_or_app. now left.
Qed.

(** Past the pivot line, blank lines and further pivot lines are passed
    over. *)
Lemma scan_passed_over (l rest : list string) :
  (forall m, In m l -> passed_over pivot m) ->
  scan_reversed trigger pivot judge (l ++ rest)%list true true self
  = scan_reversed trigger pivot judge rest true true self.
Proof.
  induction l as [|m l IH]; intros H; [reflexivity|].
  cbn [app]. cbn [scan_reversed].
  assert (Ht : (if trigger m then true else true) = true)
    by (destruct (trigger m); reflexivity).
  rewrite Ht. cbn [andb]. rewrite empty_regex_blank.
  assert (Hl : forall m', In m' l -> passed_over pivot m')
    by (intros m' Hm'; apply H; now right).
  destruct (pivot m) eqn:Hp; [now apply IH|].
  destruct (H m (or_introl eq_refl)) as [Hb | Hb]; [|congruence].
  rewrite Hb. cbn [negb]. now apply IH.
Qed.

(** The pivot line, once the trigger has been seen. *)
Lemma scan_at_pivot (p : string) (after rest : list string) :
  pivot_hit trigger pivot p after ->
  scan_reversed trigger pivot judge (p :: rest) (existsb trigger after)
                false self
  = scan_reversed trigger pivot judge rest true true self.
Proof.
  intros [Hp [t [Hin Ht]]]. cbn [scan_reversed].
  assert (Hft : (if trigger p then true else existsb trigger after) = true).
  { destruct (trigger p) eqn:Hp'; [reflexivity|].
    destruct Hin as [<- | Hin]; [congruence|].
    apply existsb_exists. now exists t. }
  now rewrite Hft, Hp.
Qed.

(** The line that decides. *)
Lemma scan_deciding (d : string) (rest : list string) :
  blank d = false -> pivot d = false ->
  scan_reversed trigger pivot judge (d :: rest) true true self
  = if judge d then (Some true, self)
    else (Some false, MkCheck (Some FAIL) None).
Proof.
  intros Hb Hp. cbn [scan_reversed].
  assert (Ht : (if trigger d then true else true) = true)
    by (destruct (trigger d); reflexivity).
  rewrite Ht, Hp, empty_regex_blank, Hb. reflexivity.
Qed.

End BackwardScan.

End PluginFacts.

(* ================================================================== *)
(** ** The checks *)
(* ================================================================== *)

Import PyStr PyStrFacts Re ReFacts Terms PluginFacts Samples.

(** C3. CheckNewStyleMaven: when the Maven marker is in some
    build-requirement and the XMvn build/install macro pattern is found in
    the spec text the verdict is PASS; when the marker is there and the
    pattern is not found the verdict is FAIL, with the advice to update;
    when the marker is absent the verdict is NOT-APPLICABLE, whether the
    pattern is found or not. *)
Theorem CheckNewStyleMaven_verdict (spec : SpecFile) (self : check) :
  (maven_marker spec /\ found_in_spec xmvn_re spec ->
   CheckNewStyleMaven.run spec self = MkCheck (Some PASS) None) /\
  (maven_marker spec /\ ~ found_in_spec xmvn_re spec ->
   CheckNewStyleMaven.run spec self
   = MkCheck (Some FAIL) (Some CheckNewStyleMaven.fail_text)) /\
  (~ maven_marker spec ->
   CheckNewStyleMaven.run spec self = MkCheck (Some NA) None).
Proof.
  unfold CheckNewStyleMaven.run.
  rewrite <- is_maven_iff, <- is_xmvn_iff.
  destruct (_is_maven_pkg spec), (truthy_opt (_is_xmvn_pkg spec)); simpl;
    repeat split; intros H; try reflexivity;
    try (destruct H as [H1 H2]; congruence);
    try (exfalso; apply H; reflexivity).
Qed.

Lemma CheckNewStyleMaven_verdict_witness :
  CheckNewStyleMaven.run maven_xmvn_spec unevaluated = MkCheck (Some PASS) None
  /\ CheckNewStyleMaven.run maven_old_spec unevaluated
     = MkCheck (Some FAIL) (Some CheckNewStyleMaven.fail_text)
  /\ CheckNewStyleMaven.run ant_xmvn_spec unevaluated = MkCheck (Some NA) None.
Proof.
  split; [|split].
  - apply (proj1 (CheckNewStyleMaven_verdict maven_xmvn_spec unevaluated)).
    split.
    + exists "maven-local". split; [simpl; auto | reflexivity].
    + exists "%mvn_build -f". split; [simpl; auto | reflexivity].
  - apply (proj1 (proj2 (CheckNewStyleMaven_verdict maven_old_spec
                                                    unevaluated))).
    split.
    + exists "maven-local". split; [simpl; auto | reflexivity].
    + intros [line [Hin H]]. simpl in Hin.
      destruct Hin as [<- | [<- | []]]; vm_compute in H; discriminate.
  - apply (proj2 (proj2 (CheckNewStyleMaven_verdict ant_xmvn_spec
                                                    unevaluated))).
    intros [br [Hin H]]. simpl in Hin.
    destruct Hin as [<- | []]; vm_compute in H; discriminate.
Defined.

(** C6. CheckAddMavenDepmap: when no file of the build output matches
    '*.pom' the verdict is NOT-APPLICABLE; otherwise, when the package is an
    XMvn build the verdict is PASS; otherwise, when the old-style
    %add_maven_depmap pattern is not found in the spec the verdict is FAIL;
    otherwise, the pattern being found, the verdict is PENDING. *)
Theorem CheckAddMavenDepmap_verdict (spec : SpecFile) (rpms : RpmsSource)
        (self : check) :
  (~ built_file_matching rpms "*.pom" ->
   CheckAddMavenDepmap.run spec rpms self = MkCheck (Some NA) None) /\
  (built_file_matching rpms "*.pom" ->
   (found_in_spec xmvn_re spec ->
    CheckAddMavenDepmap.run spec rpms self = MkCheck (Some PASS) None) /\
   (~ found_in_spec xmvn_re spec ->
    ~ found_in_spec CheckAddMavenDepmap.add_maven_depmap_re spec ->
    CheckAddMavenDepmap.run spec rpms self
    = MkCheck (Some FAIL) (Some CheckAddMavenDepmap.fail_text)) /\
   (~ found_in_spec xmvn_re spec ->
    found_in_spec CheckAddMavenDepmap.add_maven_depmap_re spec ->
    CheckAddMavenDepmap.run spec rpms self
    = MkCheck (Some PENDING) (Some CheckAddMavenDepmap.pending_text))).
Proof.
  unfold CheckAddMavenDepmap.run.
  rewrite (find_truthy rpms None "*.pom" eq_refl).
  rewrite <- find_all_none_truthy, <- is_xmvn_iff, <- add_maven_depmap_iff.
  destruct (truthy_list (find_all "*.pom" None rpms)); simpl.
  - split; [intros H; exfalso; now apply H|]. intros _.
    destruct (truthy_opt (_is_xmvn_pkg spec)); simpl.
    + repeat split; intros; try reflexivity; exfalso; auto.
    + destruct (truthy_opt
                  (find_re CheckAddMavenDepmap.add_maven_depmap_re spec));
        simpl; repeat split; intros; try reflexivity; try discriminate;
        exfalso; auto.
  - split; [reflexivity | discriminate].
Qed.

Lemma CheckAddMavenDepmap_verdict_witness :
  CheckAddMavenDepmap.run maven_xmvn_spec no_pom_rpms unevaluated
  = MkCheck (Some NA) None
  /\ CheckAddMavenDepmap.run maven_xmvn_spec pom_rpms unevaluated
     = MkCheck (Some PASS) None
  /\ CheckAddMavenDepmap.run maven_old_spec pom_rpms unevaluated
     = MkCheck (Some FAIL) (Some CheckAddMavenDepmap.fail_text)
  /\ CheckAddMavenDepmap.run depmap_spec pom_rpms unevaluated
     = MkCheck (Some PENDING) (Some CheckAddMavenDepmap.pending_text).
Proof.
  assert (Hpom : built_file_matching pom_rpms "*.pom").
  { exists "foo". split; [simpl; auto|].
    exists "/usr/share/maven-poms/foo.pom".
    split; [simpl; auto | reflexivity]. }
  assert (Hold : ~ found_in_spec xmvn_re maven_old_spec).
  { intros [line [Hin H]]. simpl in Hin.
    destruct Hin as [<- | [<- | []]]; vm_compute in H; discriminate. }
  assert (Hdep : ~ found_in_spec xmvn_re depmap_spec).
  { intros [line [Hin H]]. simpl in Hin.
    destruct Hin as [<- | [<- | []]]; vm_compute in H; discriminate. }
  split; [|split; [|split]].
  - apply (proj1 (CheckAddMavenDepmap_verdict maven_xmvn_spec no_pom_rpms
                                              unevaluated)).
    intros [pkg [Hin [f [Hf H]]]]. simpl in Hin. destruct Hin as [<- | []].
    simpl in Hf. destruct Hf as [<- | [<- | []]]; vm_compute in H;
      discriminate.
  - apply (proj2 (CheckAddMavenDepmap_verdict maven_xmvn_spec pom_rpms
                                              unevaluated) Hpom).
    exists "%mvn_build -f". split; [simpl; auto | reflexivity].
  - apply (proj2 (CheckAddMavenDepmap_verdict maven_old_spec pom_rpms
                                              unevaluated) Hpom);
      [exact Hold|].
    intros [line [Hin H]]. simpl in Hin.
    destruct Hin as [<- | [<- | []]]; vm_compute in H; discriminate.
  - apply (proj2 (CheckAddMavenDepmap_verdict depmap_spec pom_rpms
                                              unevaluated) Hpom);
      [exact Hdep|].
    exists "%add_maven_depmap JPP-foo.pom foo.jar".
    split; [simpl; auto | reflexivity].
Defined.

(** C2. CheckJPackageRequires: for a package that is Maven (the marker is
    in a build-requirement) or XMvn (the macro pattern is found in the
    spec), the check FAILs whenever a build-requirement contains one of the
    packaging-tools tokens looked for among the build-requires or a computed
    requirement contains one of those looked for among the requires, and
    PASSes when none does; for any other package the check PASSes only when
    a token is found on both sides, and FAILs when it is missing on either. *)
Theorem CheckJPackageRequires_verdict (spec : SpecFile) (self : check) :
  let br_found := token_within JAVAPACKAGES_BR (build_requires spec) in
  let r_found := token_within JAVAPACKAGES_R (get_requires spec None) in
  (maven_marker spec \/ found_in_spec xmvn_re spec ->
   (br_found \/ r_found ->
    result (CheckJPackageRequires.run_on_applicable spec self) = Some FAIL) /\
   (~ (br_found \/ r_found) ->
    result (CheckJPackageRequires.run_on_applicable spec self) = Some PASS))
  /\
  (~ (maven_marker spec \/ found_in_spec xmvn_re spec) ->
   (br_found /\ r_found ->
    result (CheckJPackageRequires.run_on_applicable spec self) = Some PASS) /\
   (~ br_found \/ ~ r_found ->
    result (CheckJPackageRequires.run_on_applicable spec self) = Some FAIL)).
Proof.
  cbv zeta. unfold CheckJPackageRequires.run_on_applicable.
  rewrite <- is_maven_iff, <- is_xmvn_iff, <- !any_token_in_iff.
  destruct (_is_maven_pkg spec), (truthy_opt (_is_xmvn_pkg spec)),
    (CheckJPackageRequires.any_token_in JAVAPACKAGES_BR (build_requires spec)),
    (CheckJPackageRequires.any_token_in JAVAPACKAGES_R
                                        (get_requires spec None));
    simpl; repeat split; intros; try reflexivity; exfalso;
    repeat match goal with
           | H : _ \/ _ |- _ => destruct H
           | H : _ /\ _ |- _ => destruct H
           | H : ~ _ |- _ => apply H; clear H
           end; auto; try discriminate.
Qed.

Lemma CheckJPackageRequires_verdict_witness :
  result (CheckJPackageRequires.run_on_applicable maven_tools_spec
                                                  unevaluated) = Some FAIL
  /\ result (CheckJPackageRequires.run_on_applicable maven_xmvn_spec
                                                     unevaluated) = Some PASS
  /\ result (CheckJPackageRequires.run_on_applicable ant_tools_spec
                                                     unevaluated) = Some PASS
  /\ result (CheckJPackageRequires.run_on_applicable ant_spec
                                                     unevaluated) = Some FAIL.
Proof.
  split; [|split; [|split]].
  - apply (proj1 (CheckJPackageRequires_verdict maven_tools_spec
                                                unevaluated)).
    + left. exists "maven-local". split; [simpl; auto | reflexivity].
    + left. exists "javapackages-tools", "javapackages-tools".
      split; [simpl; auto|]. split; [simpl; auto | reflexivity].
  - apply (proj1 (CheckJPackageRequires_verdict maven_xmvn_spec
                                                unevaluated)).
    + left. exists "maven-local". split; [simpl; auto | reflexivity].
    + intros [[x [r [Hx [Hr H]]]] | [x [r [Hx [Hr H]]]]]; simpl in Hr.
      * destruct Hr as [<- | []]. simpl in Hx.
        repeat (destruct Hx as [<- | Hx]; [vm_compute in H; discriminate|]).
        exact Hx.
      * exact Hr.
  - apply (proj2 (CheckJPackageRequires_verdict ant_tools_spec unevaluated)).
    + intros [[br [Hin H]] | [line [Hin H]]]; simpl in Hin.
      * repeat (destruct Hin as [<- | Hin]; [vm_compute in H; discriminate|]).
        exact Hin.
      * repeat (destruct Hin as [<- | Hin]; [vm_compute in H; discriminate|]).
        exact Hin.
    + split.
      * exists "javapackages-local", "javapackages-local".
        split; [simpl; auto|]. split; [simpl; auto | reflexivity].
      * exists "jpackage-utils", "jpackage-utils".
        split; [simpl; auto|]. split; [simpl; auto | reflexivity].
  - apply (proj2 (CheckJPackageRequires_verdict ant_spec unevaluated)).
    + intros [[br [Hin H]] | [line [Hin H]]]; simpl in Hin.
      * repeat (destruct Hin as [<- | Hin]; [vm_compute in H; discriminate|]).
        exact Hin.
      * repeat (destruct Hin as [<- | Hin]; [vm_compute in H; discriminate|]).
        exact Hin.
    + right. intros [x [r [Hx [Hr H]]]]. exact Hr.
Defined.

(** C5. CheckJavadocJPackageRequires: with no declared subpackage whose
    name ends in '-javadoc' the verdict is NOT-APPLICABLE; with more than
    one the verdict is PENDING, with a text that says so, and not FAIL; with
    exactly one the verdict is FAIL when a packaging-tools token is an entry
    of that subpackage's requires, and PASS otherwise. *)
Theorem CheckJavadocJPackageRequires_verdict (spec : SpecFile)
        (self : check) :
  (List.length (javadoc_subpackages spec) = 0 ->
   CheckJavadocJPackageRequires.run_on_applicable spec self
   = MkCheck (Some NA) None) /\
  (1 < List.length (javadoc_subpackages spec) ->
   CheckJavadocJPackageRequires.run_on_applicable spec self
   = MkCheck (Some PENDING) (Some "More than one javadoc package")) /\
  (forall pkg, javadoc_subpackages spec = [pkg] ->
   (token_listed JAVAPACKAGES_R (get_requires spec (Some pkg)) ->
    CheckJavadocJPackageRequires.run_on_applicable spec self
    = MkCheck (Some FAIL) (Some CheckJavadocJPackageRequires.generated_text))
   /\
   (~ token_listed JAVAPACKAGES_R (get_requires spec (Some pkg)) ->
    CheckJavadocJPackageRequires.run_on_applicable spec self
    = MkCheck (Some PASS) None)).
Proof.
  unfold CheckJavadocJPackageRequires.run_on_applicable, javadoc_subpackages,
    javadoc_name.
  destruct (filter _ (packages spec)) as [|p [|q l]]; cbv zeta.
  - repeat split; intros; try reflexivity; try (simpl in *; lia);
      discriminate.
  - split; [discriminate|]. split; [simpl; lia|].
    intros pkg E. injection E as <-.
    rewrite <- !any_listed_iff.
    destruct (existsb (fun x => mem x (get_requires spec (Some p)))
                      JAVAPACKAGES_R);
      split; intros H; try reflexivity; try discriminate.
    exfalso. now apply H.
  - split; [discriminate|]. split; [reflexivity|]. intros pkg E. discriminate.
Qed.

Lemma CheckJavadocJPackageRequires_verdict_witness :
  CheckJavadocJPackageRequires.run_on_applicable ant_spec unevaluated
  = MkCheck (Some NA) None
  /\ CheckJavadocJPackageRequires.run_on_applicable two_javadoc_spec
                                                    unevaluated
     = MkCheck (Some PENDING) (Some "More than one javadoc package")
  /\ CheckJavadocJPackageRequires.run_on_applicable javadoc_tools_spec
                                                    unevaluated
     = MkCheck (Some FAIL) (Some CheckJavadocJPackageRequires.generated_text)
  /\ CheckJavadocJPackageRequires.run_on_applicable maven_xmvn_spec
                                                    unevaluated
     = MkCheck (Some PASS) None.
Proof.
  split; [|split; [|split]].
  - apply (proj1 (CheckJavadocJPackageRequires_verdict ant_spec unevaluated)).
    reflexivity.
  - apply (proj1 (proj2 (CheckJavadocJPackageRequires_verdict
                           two_javadoc_spec unevaluated))).
    simpl. lia.
  - apply (proj2 (proj2 (CheckJavadocJPackageRequires_verdict
                           javadoc_tools_spec unevaluated)) "foo-javadoc");
      [reflexivity|].
    exists "jpackage-utils". split; simpl; auto.
  - apply (proj2 (proj2 (CheckJavadocJPackageRequires_verdict
                           maven_xmvn_spec unevaluated)) "foo-javadoc");
      [reflexivity|].
    intros [x [Hx Hr]]. exact Hr.
Defined.

(** C10. CheckJavadocJPackageRequires flags a packaging-tools token only
    when some entry of the subpackage's requires is the token itself: an
    entry that has the token inside it and is no token does not make the
    check FAIL.  CheckJPackageRequires is different: it takes a token for
    found when the token occurs inside some requirement entry. *)
Theorem javadoc_requires_whole_entries (spec : SpecFile) (self : check)
        (pkg : string) :
  javadoc_subpackages spec = [pkg] ->
  (result (CheckJavadocJPackageRequires.run_on_applicable spec self)
   = Some FAIL
   <-> token_listed JAVAPACKAGES_R (get_requires spec (Some pkg))) /\
  (token_within JAVAPACKAGES_R (get_requires spec (Some pkg)) ->
   ~ token_listed JAVAPACKAGES_R (get_requires spec (Some pkg)) ->
   result (CheckJavadocJPackageRequires.run_on_applicable spec self)
   = Some PASS) /\
  (forall other : SpecFile,
      ~ (maven_marker other \/ found_in_spec xmvn_re other) ->
      token_within JAVAPACKAGES_BR (build_requires other) ->
      (result (CheckJPackageRequires.run_on_applicable other self)
       = Some PASS
       <-> token_within JAVAPACKAGES_R (get_requires other None))).
Proof.
  intros Hone.
  assert (Hrun : result (CheckJavadocJPackageRequires.run_on_applicable
                           spec self)
                 = Some (if existsb (fun x => mem x (get_requires spec
                                                                  (Some pkg)))
                                    JAVAPACKAGES_R
                         then FAIL else PASS)).
  { unfold CheckJavadocJPackageRequires.run_on_applicable.
    unfold javadoc_subpackages, javadoc_name in Hone. rewrite Hone.
    destruct (existsb _ JAVAPACKAGES_R); reflexivity. }
  rewrite Hrun, <- any_listed_iff. split; [|split].
  - destruct (existsb _ JAVAPACKAGES_R); split; intros H;
      try reflexivity; discriminate.
  - intros _ H. destruct (existsb _ JAVAPACKAGES_R);
      [exfalso; now apply H | reflexivity].
  - intros other Hm Hbr.
    unfold CheckJPackageRequires.run_on_applicable. cbv zeta.
    rewrite <- is_maven_iff, <- is_xmvn_iff in Hm.
    apply any_token_in_iff in Hbr. rewrite <- any_token_in_iff, Hbr.
    destruct (_is_maven_pkg other);
      [exfalso; apply Hm; now left|].
    destruct (truthy_opt (_is_xmvn_pkg other));
      [exfalso; apply Hm; now right|].
    destruct (CheckJPackageRequires.any_token_in JAVAPACKAGES_R
                (get_requires other None)); simpl;
      split; intros H; try reflexivity; discriminate.
Qed.

Lemma javadoc_requires_whole_entries_witness :
  result (CheckJavadocJPackageRequires.run_on_applicable versioned_req_spec
                                                         unevaluated)
  = Some PASS
  /\ result (CheckJPackageRequires.run_on_applicable versioned_req_spec
                                                     unevaluated)
     = Some PASS.
Proof.
  assert (Hone : javadoc_subpackages versioned_req_spec = ["foo-javadoc"])
    by reflexivity.
  assert (Hin : token_within JAVAPACKAGES_R ["javapackages-tools >= 1.0"]).
  { exists "javapackages-tools", "javapackages-tools >= 1.0".
    split; [simpl; auto|]. split; [simpl; auto | reflexivity]. }
  pose proof (javadoc_requires_whole_entries versioned_req_spec unevaluated
                                             "foo-javadoc" Hone)
    as [_ [Hjavadoc Hbuild]].
  split.
  - apply Hjavadoc; [exact Hin|].
    intros [x [Hx Hr]]. simpl in Hr. destruct Hr as [<- | []].
    simpl in Hx. destruct Hx as [Hx | [Hx | []]]; discriminate.
  - apply (Hbuild versioned_req_spec); [| |exact Hin].
    + intros [[br [Hb H]] | [line [Hl H]]].
      * simpl in Hb.
        repeat (destruct Hb as [<- | Hb]; [vm_compute in H; discriminate|]).
        exact Hb.
      * simpl in Hl.
        repeat (destruct Hl as [<- | Hl]; [vm_compute in H; discriminate|]).
        exact Hl.
    + exists "javapackages-local", "javapackages-local".
      split; [simpl; auto|]. split; [simpl; auto | reflexivity].
Defined.

(** C7. CheckJavadoc: for a package with no declared subpackage whose name
    ends in '-javadoc' the verdict is FAIL, with a text that notes that
    javadocs are optional for Fedora 21 and later; for a package with such a
    subpackage (the first one counts) the verdict is PASS when its file list
    has an HTML file, a path ending in '.html', and FAIL otherwise. *)
Theorem CheckJavadoc_verdict (spec : SpecFile) (rpms : RpmsSource)
        (self : check) :
  (no_javadoc spec ->
   CheckJavadoc.run_on_applicable spec rpms self
   = MkCheck (Some FAIL) (Some CheckJavadoc.no_subpackage_text) /\
   contains "Javadocs are optional for Fedora versions >= 21"
            CheckJavadoc.no_subpackage_text = true) /\
  (forall pkg, first_javadoc spec pkg ->
   ((exists f, In f (filelist rpms pkg) /\ endswith f ".html" = true) ->
    CheckJavadoc.run_on_applicable spec rpms self = MkCheck (Some PASS) None)
   /\
   (~ (exists f, In f (filelist rpms pkg) /\ endswith f ".html" = true) ->
    CheckJavadoc.run_on_applicable spec rpms self
    = MkCheck (Some FAIL) (Some ("No javadoc html files found in " ++ pkg)))).
Proof.
  unfold CheckJavadoc.run_on_applicable. split.
  - intros H. rewrite (get_javadoc_sub_none spec H). split; reflexivity.
  - intros pkg H. pose proof H as [pre [post [_ [_ Hname]]]].
    rewrite (get_javadoc_sub_first spec pkg H).
    cbn [truthy_opt]. rewrite (javadoc_name_truthy pkg Hname). cbn [negb].
    rewrite (find_truthy rpms (Some pkg) "*.html" eq_refl).
    assert (Hiff : truthy_list (find_all "*.html" (Some pkg) rpms) = true <->
                   exists f, In f (filelist rpms pkg) /\
                             endswith f ".html" = true).
    { rewrite find_all_truthy. unfold file_matching.
      split; intros [f [Hin Hm]]; exists f; (split; [assumption|]);
        [rewrite <- (fnmatch_star_plain ".html" f eq_refl)
        |rewrite (fnmatch_star_plain ".html" f eq_refl)]; exact Hm. }
    rewrite <- Hiff.
    destruct (truthy_list (find_all "*.html" (Some pkg) rpms)); split;
      intros Hf; try reflexivity; try discriminate.
    exfalso. now apply Hf.
Qed.

Lemma CheckJavadoc_verdict_witness :
  CheckJavadoc.run_on_applicable ant_spec pom_rpms unevaluated
  = MkCheck (Some FAIL) (Some CheckJavadoc.no_subpackage_text)
  /\ CheckJavadoc.run_on_applicable maven_xmvn_spec javadoc_rpms unevaluated
     = MkCheck (Some PASS) None
  /\ CheckJavadoc.run_on_applicable maven_xmvn_spec pom_rpms unevaluated
     = MkCheck (Some FAIL) (Some "No javadoc html files found in foo-javadoc").
Proof.
  assert (Hfirst : first_javadoc maven_xmvn_spec "foo-javadoc").
  { exists ["foo"], []. split; [reflexivity|]. split; [|reflexivity].
    intros q [<- | []]. reflexivity. }
  split; [|split].
  - apply (proj1 (CheckJavadoc_verdict ant_spec pom_rpms unevaluated)).
    intros q [<- | []]. reflexivity.
  - apply (proj2 (CheckJavadoc_verdict maven_xmvn_spec javadoc_rpms
                                       unevaluated) "foo-javadoc" Hfirst).
    exists "/usr/share/javadoc/foo/index.html".
    split; [simpl; auto | reflexivity].
  - apply (proj2 (CheckJavadoc_verdict maven_xmvn_spec pom_rpms
                                       unevaluated) "foo-javadoc" Hfirst).
    intros [f [Hin H]]. simpl in Hin.
    repeat (destruct Hin as [<- | Hin]; [vm_compute in H; discriminate|]).
    exact Hin.
Defined.

(** C8. CheckJavadocdirName: for a package with a javadoc subpackage the
    verdict is PASS if and only if some file of the subpackage matches
    /usr/share/javadoc/<name>/* and none matches
    /usr/share/javadoc/<name>-<version>/*; one more file, at the versioned
    path, makes the verdict FAIL. *)
Theorem CheckJavadocdirName_verdict (spec : SpecFile) (rpms : RpmsSource)
        (self : check) (pkg : string) :
  first_javadoc spec pkg ->
  let canonical := "/usr/share/javadoc/" ++ name spec ++ "/*" in
  let versioned :=
    "/usr/share/javadoc/" ++ name spec ++ "-" ++ version spec ++ "/*" in
  (result (CheckJavadocdirName.run_on_applicable spec rpms self) = Some PASS
   <-> file_matching rpms pkg canonical /\
       ~ file_matching rpms pkg versioned) /\
  (forall f, fnmatch f versioned = true ->
   result (CheckJavadocdirName.run_on_applicable spec (with_file pkg f rpms)
                                                 self) = Some FAIL).
Proof.
  intros H. pose proof H as [pre [post [_ [_ Hname]]]]. cbv zeta.
  assert (Hrun : forall r,
             result (CheckJavadocdirName.run_on_applicable spec r self)
             = Some (if truthy_list
                          (find_all (CheckJavadocdirName.name_ver_pattern spec)
                                    (Some pkg) r)
                     then FAIL
                     else if truthy_list
                               (find_all
                                  (CheckJavadocdirName.name_pattern spec)
                                  (Some pkg) r)
                          then PASS else FAIL)).
  { intros r. unfold CheckJavadocdirName.run_on_applicable.
    rewrite (get_javadoc_sub_first spec pkg H).
    cbn [truthy_opt]. rewrite (javadoc_name_truthy pkg Hname). cbn [negb].
    destruct (truthy_list (find_all (CheckJavadocdirName.name_ver_pattern
                                       spec) (Some pkg) r));
      [reflexivity|].
    destruct (truthy_list (find_all (CheckJavadocdirName.name_pattern spec)
                                    (Some pkg) r)); reflexivity. }
  change ("/usr/share/javadoc/" ++ name spec ++ "/*")
    with (CheckJavadocdirName.name_pattern spec).
  change ("/usr/share/javadoc/" ++ name spec ++ "-" ++ version spec ++ "/*")
    with (CheckJavadocdirName.name_ver_pattern spec).
  split.
  - rewrite Hrun, <- !find_all_truthy.
    destruct (truthy_list (find_all (CheckJavadocdirName.name_ver_pattern
                                       spec) (Some pkg) rpms)),
      (truthy_list (find_all (CheckJavadocdirName.name_pattern spec)
                             (Some pkg) rpms));
      split; try discriminate; try reflexivity;
      try (intros [H1 H2]; try discriminate; exfalso; now apply H2).
    intros _. split; [reflexivity | discriminate].
  - intros f Hf. rewrite Hrun.
    assert (Hv : truthy_list
                   (find_all (CheckJavadocdirName.name_ver_pattern spec)
                             (Some pkg) (with_file pkg f rpms)) = true).
    { apply find_all_truthy. exists f. split; [|exact Hf].
      simpl. rewrite String.eqb_refl. now left. }
    now rewrite Hv.
Qed.

Lemma CheckJavadocdirName_verdict_witness :
  result (CheckJavadocdirName.run_on_applicable maven_xmvn_spec javadoc_rpms
                                                unevaluated) = Some PASS
  /\ result (CheckJavadocdirName.run_on_applicable
               maven_xmvn_spec
               (with_file "foo-javadoc" "/usr/share/javadoc/foo-1.0/index.html"
                          javadoc_rpms)
               unevaluated) = Some FAIL.
Proof.
  assert (Hfirst : first_javadoc maven_xmvn_spec "foo-javadoc").
  { exists ["foo"], []. split; [reflexivity|]. split; [|reflexivity].
    intros q [<- | []]. reflexivity. }
  pose proof (CheckJavadocdirName_verdict maven_xmvn_spec javadoc_rpms
                unevaluated "foo-javadoc" Hfirst) as [Hpass Hflip].
  split.
  - apply Hpass. split.
    + exists "/usr/share/javadoc/foo/index.html".
      split; [simpl; auto | reflexivity].
    + intros [f [Hin Hm]]. simpl in Hin.
      repeat (destruct Hin as [<- | Hin]; [vm_compute in Hm; discriminate|]).
      exact Hin.
  - apply Hflip. reflexivity.
Defined.

(** C9. CheckNoArch: a subpackage whose architecture tag does not expand
    counts as a mismatch, the same as one whose tag expands to something
    that is not 'noarch' in lower case: the verdict is PENDING, with the
    request to verify the first such subpackage manually.  The verdict is
    PASS only when the tag of every subpackage expands and reads 'noarch' in
    lower case. *)
Theorem CheckNoArch_verdict (spec : SpecFile) (self : check) :
  (forall pre pkg post,
      packages spec = (pre ++ pkg :: post)%list ->
      (forall q, In q pre -> noarch_tag spec q) ->
      (expand_tag spec "arch" pkg = None \/
       exists a, expand_tag spec "arch" pkg = Some a /\
                 lower a <> "noarch") ->
      CheckNoArch.run_on_applicable spec self
      = MkCheck (Some PENDING)
              (Some (pkg ++ " subpackage is not "
                         ++ "noarch. Please verify manually")))
  /\
  (result (CheckNoArch.run_on_applicable spec self) = Some PASS
   <-> forall q, In q (packages spec) -> noarch_tag spec q).
Proof.
  unfold CheckNoArch.run_on_applicable. split.
  - intros pre pkg post -> Hpre Hpkg.
    induction pre as [|q pre IH]; cbn [app CheckNoArch.for_packages].
    + assert (Hno : CheckNoArch.is_noarch
                      (CheckNoArch.lowered (expand_tag spec "arch" pkg))
                    = false).
      { apply not_true_is_false. intros Ht.
        apply is_noarch_iff in Ht as [a [Ea Hl]].
        destruct Hpkg as [En | [b [Eb Hb]]]; congruence. }
      rewrite Hno. reflexivity.
    + rewrite (proj2 (is_noarch_iff spec q) (Hpre q (or_introl eq_refl))).
      cbn [negb]. apply IH. intros r Hr. apply Hpre. now right.
  - induction (packages spec) as [|q l IH]; cbn [CheckNoArch.for_packages].
    + split; [intros _ q [] | reflexivity].
    + destruct (CheckNoArch.is_noarch
                  (CheckNoArch.lowered (expand_tag spec "arch" q))) eqn:Hq;
        cbn [negb].
      * rewrite IH. apply is_noarch_iff in Hq. split.
        -- intros Hl r [<- | Hr]; auto.
        -- intros Hl r Hr. apply Hl. now right.
      * split; [discriminate|]. intros Hl.
        assert (Ht : noarch_tag spec q) by (apply Hl; now left).
        apply is_noarch_iff in Ht. congruence.
Qed.

Lemma CheckNoArch_verdict_witness :
  CheckNoArch.run_on_applicable jni_spec unevaluated
  = MkCheck (Some PENDING)
          (Some "foo-native subpackage is not noarch. Please verify manually")
  /\ CheckNoArch.run_on_applicable untagged_spec unevaluated
     = MkCheck (Some PENDING)
             (Some ("foo-javadoc subpackage is not noarch. "
                    ++ "Please verify manually")).
Proof.
  split.
  - apply (proj1 (CheckNoArch_verdict jni_spec unevaluated)
                 ["foo"] "foo-native" ["foo-javadoc"] eq_refl).
    + intros q [<- | []]. exists "NoArch". split; reflexivity.
    + right. exists "x86_64". split; [reflexivity | discriminate].
  - apply (proj1 (CheckNoArch_verdict untagged_spec unevaluated)
                 ["foo"] "foo-javadoc" [] eq_refl).
    + intros q [<- | []]. exists "noarch". split; reflexivity.
    + left. reflexivity.
Defined.

(** C4. CheckMvnRpmbuild: the pattern '[^#]*mvn-rpmbuild' is searched for,
    not matched from the start of the line, so that the verdict is FAIL
    exactly when 'mvn-rpmbuild' occurs in some line of the spec text,
    comment lines included, and NOT-APPLICABLE otherwise.  In particular a
    spec text that names mvn-rpmbuild in a comment line only gets FAIL. *)
Theorem CheckMvnRpmbuild_counts_comment_lines :
  (forall spec self,
      CheckMvnRpmbuild.run spec self
      = if existsb (contains "mvn-rpmbuild") (lines spec)
        then MkCheck (Some FAIL) (Some CheckMvnRpmbuild.fail_text)
        else MkCheck (Some NA) None) /\
  forallb (fun line => implb (contains "mvn-rpmbuild" line)
                             (comment_line line))
          (lines commented_out_spec) = true /\
  CheckMvnRpmbuild.run commented_out_spec unevaluated
  = MkCheck (Some FAIL) (Some CheckMvnRpmbuild.fail_text).
Proof.
  split; [|split; reflexivity].
  intros spec self. unfold CheckMvnRpmbuild.run.
  rewrite mvn_rpmbuild_truthy.
  destruct (existsb (contains "mvn-rpmbuild") (lines spec)); reflexivity.
Qed.

(** C1, as the code has it.  [_search_previous_line] scans the lines from
    the last toward the first.  The pivot line is the first line the pivot
    is found in once the trigger has been seen, in that line or after it.
    Going on toward the start, blank lines and further lines the pivot is
    found in are passed over, and the nearest other line decides: the value
    is True, the check untouched, when the judge is found in it; the value
    is False and the verdict FAIL when it is not.  The value is None and the
    check untouched when there is no pivot line, and also when only lines
    that are passed over come before it.  On ['# reason', 'mvn-rpmbuild
    -Dmaven.test.skip'] the value is True; on the same lines without the
    comment it is None and no verdict is set. *)
Theorem search_previous_line_decides (self : check) (section : list string)
        (trigger pivot judge : string -> bool) :
  (no_pivot_hit trigger pivot section ->
   _search_previous_line self section trigger pivot judge = (None, self)) /\
  (forall before p after,
      section = (before ++ p :: after)%list ->
      pivot_hit trigger pivot p after ->
      no_pivot_hit trigger pivot after ->
      (forall pre d mid,
          before = (pre ++ d :: mid)%list ->
          (forall m, In m mid -> passed_over pivot m) ->
          blank d = false -> pivot d = false ->
          _search_previous_line self section trigger pivot judge
          = if judge d then (Some true, self)
            else (Some false, MkCheck (Some FAIL) None)) /\
      ((forall m, In m before -> passed_over pivot m) ->
       _search_previous_line self section trigger pivot judge
       = (None, self))) /\
  _search_previous_line unevaluated commented_build
    (search skip_re) (search mvn_re) (search comment_re)
  = (Some true, unevaluated) /\
  _search_previous_line unevaluated bare_build
    (search skip_re) (search mvn_re) (search comment_re)
  = (None, unevaluated).
Proof.
  assert (Hnone : forall l,
             (forall a q b, l = (a ++ q :: b)%list ->
                            ~ pivot_hit trigger pivot q b) ->
             forall a q b, l = (a ++ q :: b)%list ->
               ~ (pivot q = true /\
                  (false = true \/
                   exists t, In t (q :: b) /\ trigger t = true))).
  { intros l H a q b E [Hp [Hf | Ht]]; [discriminate|].
    apply (H a q b E). now split. }
  unfold _search_previous_line.
  split; [|split; [|split; reflexivity]].
  - intros H.
    rewrite <- (List.app_nil_r (rev section)).
    rewrite (scan_before_pivot trigger pivot judge self section []
                               false (Hnone section H)).
    reflexivity.
  - intros before p after -> Hhit Hafter.
    assert (Hrev : rev (before ++ p :: after)
                   = (rev after ++ p :: rev before)%list).
    { rewrite rev_app_distr. cbn [rev]. now rewrite <- List.app_assoc. }
    rewrite Hrev.
    rewrite (scan_before_pivot trigger pivot judge self after
                               (p :: rev before) false (Hnone after Hafter)).
    cbn [orb].
    rewrite (scan_at_pivot trigger pivot judge self p after (rev before)
                           Hhit).
    split.
    + intros pre d mid -> Hmid Hb Hp.
      rewrite rev_app_distr. cbn [rev]. rewrite <- List.app_assoc.
      cbn [app].
      rewrite (scan_passed_over trigger pivot judge self (rev mid)
                                (d :: rev pre)).
      * now apply scan_deciding.
      * intros m Hm. apply Hmid. now apply in_rev.
    + intros Hall.
      rewrite <- (List.app_nil_r (rev before)).
      rewrite (scan_passed_over trigger pivot judge self (rev before) []).
      * reflexivity.
      * intros m Hm. apply Hall. now apply in_rev.
Qed.

Lemma search_previous_line_decides_witness :
  docstring_scan commented_build = (Some true, unevaluated)
  /\ docstring_scan uncommented_build = (Some false, MkCheck (Some FAIL) None)
  /\ docstring_scan plain_build = (None, unevaluated)
  /\ docstring_scan bare_build = (None, unevaluated).
Proof.
  assert (Hlast : no_pivot_hit (search skip_re) (search mvn_re) []).
  { intros a q b E. destruct a; discriminate. }
  assert (Hhit : pivot_hit (search skip_re) (search mvn_re)
                           "mvn-rpmbuild -Dmaven.test.skip" []).
  { split; [reflexivity|]. eexists. split; [now left | reflexivity]. }
  unfold docstring_scan. split; [|split; [|split]].
  - apply (proj1 (proj1 (proj2 (search_previous_line_decides
                                  unevaluated commented_build
                                  (search skip_re) (search mvn_re)
                                  (search comment_re)))
                        ["# reason"] "mvn-rpmbuild -Dmaven.test.skip" []
                        eq_refl Hhit Hlast)
                 [] "# reason" [] eq_refl).
    + intros m [].
    + reflexivity.
    + reflexivity.
  - apply (proj1 (proj1 (proj2 (search_previous_line_decides
                                  unevaluated uncommented_build
                                  (search skip_re) (search mvn_re)
                                  (search comment_re)))
                        ["%ant jar"; "  "] "mvn-rpmbuild -Dmaven.test.skip" []
                        eq_refl Hhit Hlast)
                 [] "%ant jar" ["  "] eq_refl).
    + intros m [<- | []]. left. reflexivity.
    + reflexivity.
    + reflexivity.
  - apply (proj1 (search_previous_line_decides
                    unevaluated plain_build
                    (search skip_re) (search mvn_re) (search comment_re))).
    intros a q b E [Hp [t [Hin Ht]]].
    destruct a as [|x [|y [|z a]]]; try discriminate; injection E; intros;
      subst; simpl in Hin;
      repeat (destruct Hin as [<- | Hin]; [vm_compute in Ht; discriminate|]);
      try exact Hin.
  - apply (proj2 (proj1 (proj2 (search_previous_line_decides
                                  unevaluated bare_build
                                  (search skip_re) (search mvn_re)
                                  (search comment_re)))
                        [] "mvn-rpmbuild -Dmaven.test.skip" []
                        eq_refl Hhit Hlast)).
    intros m [].
Defined.

(** C1 as it was written does not hold.  Without the leading comment line
    the value is None and no verdict is set, not False and FAIL.  And the
    nearest non-blank line before the pivot line does not decide when the
    pivot is found in it too: in the section with two mvn-rpmbuild lines
    that line is no comment, and the value is True all the same. *)
Lemma search_previous_line_counterexample :
  (docstring_scan bare_build = (None, unevaluated) /\
   docstring_scan bare_build <> (Some false, MkCheck (Some FAIL) None)) /\
  (blank "mvn-rpmbuild -o dependency:resolve" = false /\
   search comment_re "mvn-rpmbuild -o dependency:resolve" = false /\
   docstring_scan two_step_build = (Some true, unevaluated) /\
   docstring_scan two_step_build <> (Some false, MkCheck (Some FAIL) None)).
Proof.
  split; [split; [reflexivity | discriminate]|].
  split; [reflexivity|]. split; [reflexivity|].
  split; [reflexivity | discriminate].
Qed.

(* ================================================================== *)
(** ** Facts for the other checks *)
(* ================================================================== *)

Module MoreFacts.
Import MoreTerms MoreSamples ReMore.

Lemma matches_cat_inv ci r1 r2 s :
  matches ci (Cat r1 r2) s ->
  exists u v, s = u ++ v /\ matches ci r1 u /\ matches ci r2 v.
Proof.
  intros H. inversion H as [ | | ? ? u v Hu Hv | | | | ]; subst.
  now exists u, v.
Qed.

Lemma matches_alt_inv ci r1 r2 s :
  matches ci (Alt r1 r2) s -> matches ci r1 s \/ matches ci r2 s.
Proof. intros H. inversion H; subst; auto. Qed.

Lemma matches_atom_inv ci a s :
  matches ci (Atom a) s ->
  exists d, s = String d "" /\ atom_matches ci a d = true.
Proof. intros H. inversion H; subst. eexists. split; eauto. Qed.

(** [a*] matches the texts made of characters of the class. *)
Lemma matches_star_atom ci a u :
  matches ci (Star (Atom a)) u <-> all_chars (atom_matches ci a) u = true.
Proof.
  split.
  - remember (Star (Atom a)) as r eqn:Er. intros H; revert Er.
    induction H as [ | | | | | r | r u v H1 _ H2 IH2 ]; intros Er;
      try discriminate; [reflexivity|].
    injection Er as ->. rewrite all_chars_app, IH2 by reflexivity.
    apply matches_atom_inv in H1 as [d [-> Hd]]. simpl. now rewrite Hd.
  - induction u as [|c u IH]; simpl; intros H; [constructor|].
    apply andb_true_iff in H as [Hc Hu].
    change (String c u) with (String c "" ++ u).
    constructor; [now constructor | auto].
Qed.

(** [a+] matches the same texts, the empty one apart. *)
Lemma matches_plus_atom ci a u :
  matches ci (Plus (Atom a)) u <->
  exists d u', u = String d u' /\ atom_matches ci a d = true /\
               all_chars (atom_matches ci a) u' = true.
Proof.
  unfold Plus. split.
  - intros H. apply matches_cat_inv in H as [x [y [-> [Hx Hy]]]].
    apply matches_atom_inv in Hx as [d [-> Hd]].
    apply matches_star_atom in Hy. now exists d, y.
  - intros [d [u' [-> [Hd Hu]]]].
    change (String d u') with (String d "" ++ u').
    constructor; [now constructor | now apply matches_star_atom].
Qed.

(** A literal text, searched for, is found where it occurs. *)
Lemma search_lit ci w s :
  search (Pattern false (Str w) false ci) s
  = contains (fold_case ci w) (fold_case ci s).
Proof.
  apply eq_true_iff_eq. unfold search; simpl.
  rewrite match_anywhere_spec, occurs_spec. split.
  - intros [pre [u [v [E [H _]]]]]. now exists pre, u, v.
  - intros [pre [u [v [E H]]]]. now exists pre, u, v.
Qed.

Lemma lstrip_split (s : string) :
  exists ws, s = ws ++ lstrip s /\ all_chars isspace ws = true.
Proof.
  induction s as [|c s [ws [E H]]]; simpl.
  - now exists "".
  - destruct (isspace c) eqn:Hc.
    + exists (String c ws). simpl. rewrite Hc, H. split; [congruence | auto].
    + now exists "".
Qed.

Lemma lstrip_skips (ws x : string) :
  all_chars isspace ws = true -> lstrip (ws ++ x) = lstrip x.
Proof.
  induction ws as [|c ws IH]; simpl; intros H; [reflexivity|].
  apply andb_true_iff in H as [Hc Hw]. rewrite Hc. now apply IH.
Qed.

Lemma lstrip_blank (s : string) :
  all_chars isspace s = true -> lstrip s = "".
Proof.
  intros H. rewrite <- (app_nil_r s). now rewrite lstrip_skips.
Qed.

(** A line that invokes a macro is not blank. *)
Lemma invokes_not_blank (c0 : ascii) (w line : string) :
  invokes (String c0 w) line -> blank line = false.
Proof.
  intros [c [rest [E _]]]. apply not_true_is_false. intros Hb.
  unfold blank in Hb. rewrite (lstrip_blank line Hb) in E. discriminate.
Qed.

(** [^\s*macro\s+.*], searched for in a line: found exactly when the line
    invokes the macro. *)
Lemma search_macro_line (c0 : ascii) (w line : string) :
  isspace c0 = false ->
  (search (Pattern true
             (Cat (Star (Atom Space))
                (Cat (Str (String c0 w))
                   (Cat (Plus (Atom Space)) (Star (Atom AnyChar)))))
             false false) line = true
   <-> invokes (String c0 w) line).
Proof.
  intros Hc0. unfold search. cbn [at_start ignorecase body].
  rewrite match_here_spec. split.
  - intros [u [v [-> [H _]]]].
    apply matches_cat_inv in H as [ws [u1 [-> [Hws H]]]].
    apply matches_cat_inv in H as [m [u2 [-> [Hm H]]]].
    apply matches_cat_inv in H as [sp [tail [-> [Hsp _]]]].
    apply matches_star_atom in Hws. apply matches_Str in Hm. simpl in Hm.
    apply matches_plus_atom in Hsp as [d [sp' [-> [Hd _]]]].
    subst m. exists d, (sp' ++ tail ++ v). split; [|exact Hd].
    rewrite !app_assoc. rewrite (lstrip_skips ws _ Hws).
    simpl. rewrite Hc0. reflexivity.
  - intros [c [rest [E Hc]]].
    destruct (lstrip_split line) as [ws [El Hws]].
    exists (ws ++ String c0 w ++ String c "" ++ ""), rest.
    split; [|split; [|reflexivity]].
    + rewrite El at 1. rewrite E. rewrite !app_assoc. reflexivity.
    + constructor; [now apply matches_star_atom|].
      constructor; [apply matches_Str; reflexivity|].
      constructor; [|constructor].
      apply matches_plus_atom. now exists c, "".
Qed.

(** The truth value of what [find_re] returns for such a pattern. *)
Lemma find_re_macro_line (c0 : ascii) (w : string) (spec : SpecFile) :
  isspace c0 = false ->
  (truthy_opt
     (find_re (Pattern true
                 (Cat (Star (Atom Space))
                    (Cat (Str (String c0 w))
                       (Cat (Plus (Atom Space)) (Star (Atom AnyChar)))))
                 false false) spec) = true
   <-> invoked_in_spec (String c0 w) spec).
Proof.
  intros Hc0. rewrite find_re_truthy.
  - rewrite existsb_exists. unfold invoked_in_spec.
    split; intros [l [Hin H]]; exists l; (split; [exact Hin|]);
      now apply (search_macro_line c0 w l Hc0).
  - intros l H. apply (search_macro_line c0 w l Hc0) in H.
    now apply (invokes_not_blank c0 w).
Qed.

(** A comment line invokes no macro that begins with '%'. *)
Lemma comment_line_invokes_nothing (w line : string) :
  comment_line line = true -> ~ invokes (String "%" w) line.
Proof.
  unfold comment_line. intros Hc [c [rest [E _]]]. rewrite E in Hc.
  discriminate.
Qed.

Lemma pom_found_iff (rpms : RpmsSource) :
  truthy_opt (find "*.pom" None rpms) = true
  <-> built_file_matching rpms "*.pom".
Proof.
  rewrite (find_truthy rpms None "*.pom" eq_refl).
  apply find_all_none_truthy.
Qed.

Lemma pom_found_dec (rpms : RpmsSource) :
  truthy_opt (find "*.pom" None rpms) = false
  <-> ~ built_file_matching rpms "*.pom".
Proof.
  rewrite <- pom_found_iff.
  destruct (truthy_opt (find "*.pom" None rpms)).
  - split; [discriminate | intros H; exfalso; now apply H].
  - split; [intros _ H; discriminate | reflexivity].
Qed.

(** The truth value of what [find_re] returns for the old POM directory. *)
Lemma find_re_pomdir (spec : SpecFile) :
  truthy_opt (find_re CheckUseMavenpomdirMacro.regex spec) = true
  <-> occurs_in_spec "%{_datadir}/maven2/poms" spec.
Proof.
  unfold CheckUseMavenpomdirMacro.regex, occurs_in_spec.
  rewrite find_re_truthy.
  - rewrite existsb_exists.
    split; intros [l [Hin H]]; exists l; (split; [exact Hin|]);
      [rewrite search_lit in H | rewrite search_lit]; exact H.
  - intros l. rewrite search_lit. intros H.
    eapply contains_not_blank; try exact H; reflexivity.
Qed.

(** [_find] on the two scriptlets of a package. *)
Lemma find_in_scriptlets (a b : option string) :
  CheckNoRequiresPost._find "jpackage-utils" [a; b]
  = in_scriptlet a || in_scriptlet b.
Proof.
  assert (H1 : forall o rest,
             CheckNoRequiresPost._find "jpackage-utils" (o :: rest)
             = in_scriptlet o
               || CheckNoRequiresPost._find "jpackage-utils" rest).
  { intros [[|c t]|] rest; cbn [CheckNoRequiresPost._find truthy negb
                                 in_scriptlet]; reflexivity. }
  rewrite !H1. cbn [CheckNoRequiresPost._find]. now rewrite orb_false_r.
Qed.

(** The loop collects the offending packages, in the order they are
    declared in. *)
Lemma for_packages_filter (scripts : Scriptlets) (pkgs acc : list string) :
  CheckNoRequiresPost.for_packages scripts pkgs acc
  = (acc ++ filter (offending scripts) pkgs)%list.
Proof.
  revert acc. induction pkgs as [|p pkgs IH]; intros acc;
    cbn [CheckNoRequiresPost.for_packages filter].
  - now rewrite List.app_nil_r.
  - rewrite find_in_scriptlets. fold (offending scripts p).
    destruct (offending scripts p); rewrite IH; [|reflexivity].
    now rewrite <- List.app_assoc.
Qed.

(** A whitespace run ends with a whitespace character. *)
Lemma space_run_last (d : ascii) (s : string) :
  isspace d = true -> all_chars isspace s = true ->
  exists init l, String d s = init ++ String l "" /\ isspace l = true.
Proof.
  revert d. induction s as [|c s IH]; intros d Hd Hs.
  - now exists "", d.
  - simpl in Hs. apply andb_true_iff in Hs as [Hc Hs].
    destruct (IH c Hc Hs) as [init [l [E Hl]]].
    exists (String d init), l. simpl. now rewrite E.
Qed.

(** What [skip_regex] is found in. *)
Lemma skip_regex_search (text : string) :
  search CheckTestSkip.skip_regex text = true <-> skip_flag_in text.
Proof.
  unfold search, CheckTestSkip.skip_regex, skip_flag_in.
  cbn [at_start ignorecase body]. rewrite match_anywhere_spec. split.
  - intros [pre [u [v [-> [H _]]]]].
    apply matches_cat_inv in H as [sp [u1 [-> [Hsp H]]]].
    apply matches_cat_inv in H as [m1 [u2 [-> [Hm1 H]]]].
    apply matches_cat_inv in H as [a1 [u3 [-> [Ha1 H]]]].
    apply matches_cat_inv in H as [m2 [u4 [-> [Hm2 H]]]].
    apply matches_cat_inv in H as [a2 [u5 [-> [Ha2 H]]]].
    apply matches_cat_inv in H as [m3 [tail [-> [Hm3 _]]]].
    apply matches_plus_atom in Hsp as [d [sp' [-> [Hd Hsp']]]].
    apply matches_Str in Hm1, Hm2, Hm3. simpl in Hm1, Hm2, Hm3. subst.
    apply matches_atom_inv in Ha1 as [a [-> Ha]].
    apply matches_atom_inv in Ha2 as [b [-> Hb]].
    destruct (space_run_last d sp' Hd Hsp') as [init [l [E Hl]]].
    exists (pre ++ init), l, a, b, (tail ++ v).
    split; [|split; [exact Hl | split; assumption]].
    rewrite E. rewrite !app_assoc. reflexivity.
  - intros [pre [c [a [b [rest [-> [Hc [Ha Hb]]]]]]]].
    exists pre,
      (String c "" ++ "-Dmaven" ++ String a "" ++ "test" ++ String b ""
              ++ "skip" ++ ""), rest.
    split; [reflexivity|]. split; [|reflexivity].
    constructor; [apply matches_plus_atom; now exists c, ""|].
    constructor; [apply matches_Str; reflexivity|].
    constructor; [now constructor|].
    constructor; [apply matches_Str; reflexivity|].
    constructor; [now constructor|].
    constructor; [apply matches_Str; reflexivity | constructor].
Qed.

(** What [xmvn_skip_regex] is found in. *)
Lemma xmvn_skip_regex_search (text : string) :
  search CheckTestSkip.xmvn_skip_regex text = true <-> forced_build_in text.
Proof.
  unfold search, CheckTestSkip.xmvn_skip_regex, forced_build_in.
  cbn [at_start ignorecase body]. rewrite match_anywhere_spec. split.
  - intros [pre [u [v [-> [H _]]]]].
    apply matches_cat_inv in H as [m [u1 [-> [Hm H]]]].
    apply matches_cat_inv in H as [sp [u2 [-> [Hsp H]]]].
    apply matches_cat_inv in H as [mid [u3 [-> [Hmid H]]]].
    apply matches_cat_inv in H as [fl [tail [-> [Hfl _]]]].
    apply matches_Str in Hm. simpl in Hm. subst m.
    apply matches_plus_atom in Hsp as [d [sp' [-> [Hd Hsp']]]].
    apply matches_star_atom in Hmid.
    exists pre, (String d sp'), mid, fl, (tail ++ v).
    split; [now rewrite !app_assoc|]. split; [discriminate|].
    split; [cbn [all_chars]; apply andb_true_iff; split;
            [exact Hd | exact Hsp']|].
    split; [exact Hmid|].
    apply matches_alt_inv in Hfl as [Hfl | Hfl];
      [|apply matches_alt_inv in Hfl as [Hfl | Hfl]];
      apply matches_Str in Hfl; simpl in Hfl; subst fl; simpl; auto.
  - intros [pre [ws [mid [flag [rest [-> [Hne [Hws [Hmid Hflag]]]]]]]]].
    exists pre, ("mvn-build" ++ ws ++ mid ++ flag ++ ""), rest.
    split; [rewrite !app_assoc; reflexivity|]. split; [|reflexivity].
    constructor; [apply matches_Str; reflexivity|].
    constructor.
    { apply matches_plus_atom. destruct ws as [|d ws]; [congruence|].
      simpl in Hws. apply andb_true_iff in Hws as [Hd Hws].
      now exists d, ws. }
    constructor; [now apply matches_star_atom|].
    constructor; [|constructor].
    simpl in Hflag. destruct Hflag as [<- | [<- | [<- | []]]].
    + apply m_alt_l. apply matches_Str. reflexivity.
    + apply m_alt_r, m_alt_l. apply matches_Str. reflexivity.
    + apply m_alt_r, m_alt_r. apply matches_Str. reflexivity.
Qed.

(** Whatever the state of the scan, it ends in one of three ways. *)
Lemma scan_outcome (trigger pivot judge : string -> bool) (self : check)
      (l : list string) :
  forall found_trigger found_pivot,
    let r := scan_reversed trigger pivot judge l found_trigger found_pivot
                           self in
    r = (None, self) \/ r = (Some true, self) \/
    r = (Some false, MkCheck (Some FAIL) None).
Proof.
  induction l as [|line l IH]; intros ft fp; cbn [scan_reversed].
  - now left.
  - destruct ((if trigger line then true else ft) && pivot line);
      [apply IH|].
    destruct (fp && negb (search empty_regex line)); [|apply IH].
    destruct (judge line); [right; now left | right; now right].
Qed.

(** A blank line in which neither the trigger nor the pivot is found
    leaves the scan as it is. *)
Lemma scan_skips_blank (trigger pivot judge : string -> bool) (self : check)
      (b : string) (l1 l2 : list string) :
  blank b = true -> trigger b = false -> pivot b = false ->
  forall found_trigger found_pivot,
    scan_reversed trigger pivot judge (l1 ++ b :: l2)%list
                  found_trigger found_pivot self
    = scan_reversed trigger pivot judge (l1 ++ l2)%list
                    found_trigger found_pivot self.
Proof.
  intros Hb Ht Hp. induction l1 as [|x l1 IH]; intros ft fp;
    cbn [app scan_reversed].
  - rewrite Ht, Hp, empty_regex_blank, Hb. cbn [negb].
    now rewrite !andb_false_r.
  - now rewrite !IH.
Qed.

(** [_get_javadoc_sub] returns the first of the javadoc subpackages. *)
Lemma get_javadoc_sub_hd (spec : SpecFile) :
  _get_javadoc_sub spec = hd_error (javadoc_subpackages spec).
Proof.
  unfold _get_javadoc_sub, javadoc_subpackages, javadoc_name.
  induction (packages spec) as [|q l IH]; simpl; [reflexivity|].
  destruct (endswith q "-javadoc"); [reflexivity | exact IH].
Qed.

(** The verdict of CheckJavadocdirName in a package with a javadoc
    subpackage. *)
Lemma javadocdir_result (spec : SpecFile) (rpms : RpmsSource) (self : check)
      (pkg : string) :
  _get_javadoc_sub spec = Some pkg -> javadoc_name pkg = true ->
  result (CheckJavadocdirName.run_on_applicable spec rpms self)
  = Some (if truthy_list
               (find_all (CheckJavadocdirName.name_ver_pattern spec)
                         (Some pkg) rpms)
          then FAIL
          else if truthy_list
                    (find_all (CheckJavadocdirName.name_pattern spec)
                              (Some pkg) rpms)
               then PASS else FAIL).
Proof.
  intros Hsub Hname. unfold CheckJavadocdirName.run_on_applicable.
  rewrite Hsub. cbn [truthy_opt].
  rewrite (javadoc_name_truthy pkg Hname). cbn [negb].
  destruct (truthy_list (find_all (CheckJavadocdirName.name_ver_pattern spec)
                                  (Some pkg) rpms)); [reflexivity|].
  destruct (truthy_list (find_all (CheckJavadocdirName.name_pattern spec)
                                  (Some pkg) rpms)); reflexivity.
Qed.

(** [*] matches every path. *)
Lemma fnmatch_star (path : string) : fnmatch path "*" = true.
Proof.
  unfold fnmatch. cbn [fnmatch_pat]. cbv beta.
  change (Ascii.eqb "*" "*") with true. cbv iota.
  induction path as [|d path IH]; [reflexivity|].
  rewrite IH. apply orb_true_r.
Qed.

(** [w*], for a [w] that a glob reads as it is written: the paths that
    begin with [w]. *)
Lemma fnmatch_prefix_star (w path : string) :
  no_glob_chars w = true -> fnmatch path (w ++ "*") = startswith path w.
Proof.
  unfold no_glob_chars. revert path.
  induction w as [|c w IH]; intros path H.
  - apply fnmatch_star.
  - cbn [all_chars] in H. apply andb_true_iff in H as [Hc Hw].
    apply andb_true_iff in Hc as [Hc H3].
    apply andb_true_iff in Hc as [H1 H2].
    apply negb_true_iff in H1, H2.
    unfold fnmatch. cbn [append fnmatch_pat startswith]. rewrite H1.
    destruct path as [|d path]; [reflexivity|].
    rewrite H2. cbn [orb].
    change (fnmatch_pat (w ++ "*") path) with (fnmatch path (w ++ "*")).
    now rewrite (IH path Hw).
Qed.

Lemma no_glob_chars_app (a b : string) :
  no_glob_chars (a ++ b) = no_glob_chars a && no_glob_chars b.
Proof. unfold no_glob_chars. apply all_chars_app. Qed.

Lemma length_app (a b : string) :
  String.length (a ++ b) = String.length a + String.length b.
Proof. induction a as [|c a IH]; simpl; [reflexivity | now rewrite IH]. Qed.

End MoreFacts.

(* ================================================================== *)
(** ** Further properties of the checks *)
(* ================================================================== *)

Import MoreTerms MoreSamples MoreFacts.

(** X1. CheckNoOldMavenDepmap: the verdict is FAIL when some line of the
    spec invokes %add_to_maven_depmap (the macro comes first on the line,
    leading whitespace apart, and whitespace follows it), and PASS
    otherwise.  The pattern is tied to the start of the line, so a spec in
    which every line is a comment line gets PASS. *)
Theorem CheckNoOldMavenDepmap_verdict (spec : SpecFile) (self : check) :
  (invoked_in_spec "%add_to_maven_depmap" spec ->
   CheckNoOldMavenDepmap.run_on_applicable spec self
   = MkCheck (Some FAIL) None) /\
  (~ invoked_in_spec "%add_to_maven_depmap" spec ->
   CheckNoOldMavenDepmap.run_on_applicable spec self
   = MkCheck (Some PASS) None) /\
  ((forall line, In line (lines spec) -> comment_line line = true) ->
   CheckNoOldMavenDepmap.run_on_applicable spec self
   = MkCheck (Some PASS) None).
Proof.
  unfold CheckNoOldMavenDepmap.run_on_applicable.
  pose proof (find_re_macro_line "%" "add_to_maven_depmap" spec eq_refl)
    as Hiff.
  change (Pattern true _ false false) with CheckNoOldMavenDepmap.regex
    in Hiff.
  assert (Hno : ~ invoked_in_spec "%add_to_maven_depmap" spec ->
                truthy_opt (find_re CheckNoOldMavenDepmap.regex spec)
                = false).
  { intros H. apply not_true_is_false. intros Ht. apply H.
    now apply Hiff. }
  split; [|split].
  - intros H. apply Hiff in H. now rewrite H.
  - intros H. now rewrite (Hno H).
  - intros H. rewrite Hno; [reflexivity|].
    intros [line [Hin Hinv]].
    now apply (comment_line_invokes_nothing "add_to_maven_depmap" line
                                            (H line Hin)).
Qed.

Lemma CheckNoOldMavenDepmap_verdict_witness :
  CheckNoOldMavenDepmap.run_on_applicable old_macros_spec unevaluated
  = MkCheck (Some FAIL) None
  /\ CheckNoOldMavenDepmap.run_on_applicable old_macros_commented_spec
                                             unevaluated
     = MkCheck (Some PASS) None
  /\ CheckNoOldMavenDepmap.run_on_applicable only_comments_spec unevaluated
     = MkCheck (Some PASS) None.
Proof.
  split; [|split].
  - apply (proj1 (CheckNoOldMavenDepmap_verdict old_macros_spec
                                                unevaluated)).
    exists "  %add_to_maven_depmap org.foo foo 1.0 JPP foo".
    split; [simpl; auto|].
    exists " "%char, "org.foo foo 1.0 JPP foo". split; reflexivity.
  - apply (proj1 (proj2 (CheckNoOldMavenDepmap_verdict
                           old_macros_commented_spec unevaluated))).
    intros [line [Hin [c [rest [E _]]]]]. simpl in Hin.
    repeat (destruct Hin as [<- | Hin]; [discriminate E|]).
    exact Hin.
  - apply (proj2 (proj2 (CheckNoOldMavenDepmap_verdict only_comments_spec
                                                       unevaluated))).
    intros line Hin. simpl in Hin.
    repeat (destruct Hin as [<- | Hin]; [reflexivity|]).
    destruct Hin.
Defined.

(** X2. CheckUpdateDepmap: when the build output has a POM file, the
    verdict is FAIL when some line of the spec invokes %update_maven_depmap
    (first on its line, whitespace after it), and PASS otherwise; a macro
    that ends its line, with nothing after it, is not counted. *)
Theorem CheckUpdateDepmap_verdict (spec : SpecFile) (rpms : RpmsSource)
        (self : check) :
  built_file_matching rpms "*.pom" ->
  (invoked_in_spec "%update_maven_depmap" spec ->
   CheckUpdateDepmap.run spec rpms self = MkCheck (Some FAIL) None) /\
  (~ invoked_in_spec "%update_maven_depmap" spec ->
   CheckUpdateDepmap.run spec rpms self = MkCheck (Some PASS) None) /\
  ~ invokes "%update_maven_depmap" "%update_maven_depmap".
Proof.
  intros Hpom. apply pom_found_iff in Hpom.
  unfold CheckUpdateDepmap.run. rewrite Hpom. cbn [negb].
  pose proof (find_re_macro_line "%" "update_maven_depmap" spec eq_refl)
    as Hiff.
  change (Pattern true _ false false) with CheckUpdateDepmap.regex in Hiff.
  split; [|split].
  - intros H. apply Hiff in H. now rewrite H.
  - intros H.
    assert (Hf : truthy_opt (find_re CheckUpdateDepmap.regex spec) = false).
    { apply not_true_is_false. intros Ht. apply H. now apply Hiff. }
    now rewrite Hf.
  - intros [c [rest [E _]]]. simpl in E. discriminate E.
Qed.

Lemma CheckUpdateDepmap_verdict_witness :
  CheckUpdateDepmap.run old_macros_spec pom_rpms unevaluated
  = MkCheck (Some FAIL) None
  /\ CheckUpdateDepmap.run old_macros_commented_spec pom_rpms unevaluated
     = MkCheck (Some PASS) None.
Proof.
  assert (Hpom : built_file_matching pom_rpms "*.pom").
  { exists "foo". split; [simpl; auto|].
    exists "/usr/share/maven-poms/foo.pom".
    split; [simpl; auto | reflexivity]. }
  split.
  - apply (proj1 (CheckUpdateDepmap_verdict old_macros_spec pom_rpms
                                            unevaluated Hpom)).
    exists "%update_maven_depmap -v". split; [simpl; auto|].
    exists " "%char, "-v". split; reflexivity.
  - apply (proj1 (proj2 (CheckUpdateDepmap_verdict
                           old_macros_commented_spec pom_rpms unevaluated
                           Hpom))).
    intros [line [Hin [c [rest [E _]]]]]. simpl in Hin.
    repeat (destruct Hin as [<- | Hin]; [discriminate E|]).
    exact Hin.
Defined.

(** X3. CheckUseMavenpomdirMacro: when the build output has a POM file,
    the verdict is FAIL when the text '%{_datadir}/maven2/poms' occurs in
    some line of the spec, at any place of the line and in this spelling,
    and PASS otherwise. *)
Theorem CheckUseMavenpomdirMacro_verdict (spec : SpecFile)
        (rpms : RpmsSource) (self : check) :
  built_file_matching rpms "*.pom" ->
  (occurs_in_spec "%{_datadir}/maven2/poms" spec ->
   CheckUseMavenpomdirMacro.run spec rpms self = MkCheck (Some FAIL) None)
  /\
  (~ occurs_in_spec "%{_datadir}/maven2/poms" spec ->
   CheckUseMavenpomdirMacro.run spec rpms self = MkCheck (Some PASS) None).
Proof.
  intros Hpom. apply pom_found_iff in Hpom.
  unfold CheckUseMavenpomdirMacro.run. rewrite Hpom. cbn [negb].
  rewrite <- find_re_pomdir.
  destruct (truthy_opt (find_re CheckUseMavenpomdirMacro.regex spec));
    split; intros H; try reflexivity; try discriminate.
  exfalso. now apply H.
Qed.

Lemma CheckUseMavenpomdirMacro_verdict_witness :
  CheckUseMavenpomdirMacro.run old_macros_spec pom_rpms unevaluated
  = MkCheck (Some FAIL) None
  /\ CheckUseMavenpomdirMacro.run old_macros_commented_spec pom_rpms
                                  unevaluated
     = MkCheck (Some PASS) None.
Proof.
  assert (Hpom : built_file_matching pom_rpms "*.pom").
  { exists "foo". split; [simpl; auto|].
    exists "/usr/share/maven-poms/foo.pom".
    split; [simpl; auto | reflexivity]. }
  split.
  - apply (proj1 (CheckUseMavenpomdirMacro_verdict old_macros_spec pom_rpms
                                                   unevaluated Hpom)).
    exists "cp foo.pom %{buildroot}%{_datadir}/maven2/poms/JPP-foo.pom".
    split; [simpl; auto 10 | reflexivity].
  - apply (proj2 (CheckUseMavenpomdirMacro_verdict
                    old_macros_commented_spec pom_rpms unevaluated Hpom)).
    intros [line [Hin H]]. simpl in Hin.
    repeat (destruct Hin as [<- | Hin]; [vm_compute in H; discriminate|]).
    exact Hin.
Defined.

(** X4. CheckNoRequiresPost: when the build output has a POM file, the
    declared packages with 'jpackage-utils' in their post or postun
    scriptlet decide.  With none the verdict is PASS and the text is empty;
    otherwise the verdict is FAIL and the text names them all, in the order
    they are declared in, with ', ' in between. *)
Theorem CheckNoRequiresPost_verdict (spec : SpecFile) (rpms : RpmsSource)
        (scripts : Scriptlets) (self : check) :
  built_file_matching rpms "*.pom" ->
  let bad := filter (offending scripts) (packages spec) in
  (bad = [] ->
   CheckNoRequiresPost.run spec rpms scripts self
   = MkCheck (Some PASS) (Some "")) /\
  (bad <> [] ->
   CheckNoRequiresPost.run spec rpms scripts self
   = MkCheck (Some FAIL)
             (Some ("jpackage-utils post/postun in " ++ join ", " bad))).
Proof.
  intros Hpom bad. apply pom_found_iff in Hpom.
  unfold CheckNoRequiresPost.run. rewrite Hpom. cbn [negb].
  rewrite for_packages_filter. cbn [app]. fold bad.
  destruct bad as [|p l]; split; intros H; try congruence; reflexivity.
Qed.

Lemma CheckNoRequiresPost_verdict_witness :
  CheckNoRequiresPost.run scripted_spec pom_rpms no_scripts unevaluated
  = MkCheck (Some PASS) (Some "")
  /\ CheckNoRequiresPost.run scripted_spec pom_rpms depmap_scripts
                             unevaluated
     = MkCheck (Some FAIL)
               (Some "jpackage-utils post/postun in foo, foo-extras").
Proof.
  assert (Hpom : built_file_matching pom_rpms "*.pom").
  { exists "foo". split; [simpl; auto|].
    exists "/usr/share/maven-poms/foo.pom".
    split; [simpl; auto | reflexivity]. }
  split.
  - apply (proj1 (CheckNoRequiresPost_verdict scripted_spec pom_rpms
                                              no_scripts unevaluated Hpom)).
    reflexivity.
  - apply (proj2 (CheckNoRequiresPost_verdict scripted_spec pom_rpms
                                              depmap_scripts unevaluated
                                              Hpom)).
    discriminate.
Defined.

(** X5. CheckTestSkip: the verdict is PENDING when the raw %build section
    is there and has, somewhere, a whitespace character followed by
    '-Dmaven', any character, 'test', any character, 'skip', or has
    'mvn-build' followed by whitespace and then, before the next newline,
    by '-f', '--force' or '--skip-tests'; the verdict is NOT-APPLICABLE
    otherwise, and when there is no %build section. *)
Theorem CheckTestSkip_verdict (get_section : string -> bool -> option string)
        (self : check) :
  (forall text, get_section "%build" true = Some text ->
                skip_flag_in text \/ forced_build_in text ->
                CheckTestSkip.run get_section self
                = MkCheck (Some PENDING) (Some CheckTestSkip.pending_text))
  /\
  (forall text, get_section "%build" true = Some text ->
                ~ (skip_flag_in text \/ forced_build_in text) ->
                CheckTestSkip.run get_section self = MkCheck (Some NA) None)
  /\
  (get_section "%build" true = None ->
   CheckTestSkip.run get_section self = MkCheck (Some NA) None).
Proof.
  unfold CheckTestSkip.run. cbv zeta. split; [|split].
  - intros text -> H.
    rewrite <- skip_regex_search, <- xmvn_skip_regex_search in H.
    apply orb_true_iff in H.
    destruct text as [|c text];
      [vm_compute in H; discriminate|].
    cbn [truthy andb]. now rewrite H.
  - intros text -> H.
    rewrite <- skip_regex_search, <- xmvn_skip_regex_search in H.
    rewrite <- orb_true_iff in H. apply not_true_is_false in H.
    rewrite H. now rewrite andb_false_r.
  - intros ->. reflexivity.
Qed.

Lemma CheckTestSkip_verdict_witness :
  CheckTestSkip.run (section_of "mvn-rpmbuild -Dmaven.test.skip=true install")
                    unevaluated
  = MkCheck (Some PENDING) (Some CheckTestSkip.pending_text)
  /\ CheckTestSkip.run (section_of "/usr/bin/mvn-build -j --skip-tests")
                       unevaluated
     = MkCheck (Some PENDING) (Some CheckTestSkip.pending_text)
  /\ CheckTestSkip.run (section_of "%mvn_build -f") unevaluated
     = MkCheck (Some NA) None
  /\ CheckTestSkip.run (fun _ _ => None) unevaluated = MkCheck (Some NA) None.
Proof.
  split; [|split; [|split]].
  - apply (proj1 (CheckTestSkip_verdict
                    (section_of "mvn-rpmbuild -Dmaven.test.skip=true install")
                    unevaluated) _ eq_refl).
    left. exists "mvn-rpmbuild", " "%char, "."%char, "."%char,
      "=true install".
    repeat split.
  - apply (proj1 (CheckTestSkip_verdict
                    (section_of "/usr/bin/mvn-build -j --skip-tests")
                    unevaluated) _ eq_refl).
    right. exists "/usr/bin/", " ", "-j ", "--skip-tests", "".
    split; [reflexivity|]. split; [discriminate|].
    split; [reflexivity|]. split; [reflexivity | simpl; auto].
  - apply (proj1 (proj2 (CheckTestSkip_verdict (section_of "%mvn_build -f")
                                               unevaluated)) _ eq_refl).
    intros H. rewrite <- skip_regex_search, <- xmvn_skip_regex_search in H.
    destruct H as [H | H]; vm_compute in H; discriminate.
  - apply (proj2 (proj2 (CheckTestSkip_verdict (fun _ _ => None)
                                               unevaluated))).
    reflexivity.
Defined.

(** X6. [_search_previous_line] touches the check object in one case only:
    the value is None or True and the check object is as it was, or the
    value is False and the verdict of the check is FAIL, with no text. *)
Theorem search_previous_line_outcome (self : check) (section : list string)
        (trigger pivot judge : string -> bool) :
  _search_previous_line self section trigger pivot judge = (None, self) \/
  _search_previous_line self section trigger pivot judge = (Some true, self)
  \/
  _search_previous_line self section trigger pivot judge
  = (Some false, MkCheck (Some FAIL) None).
Proof.
  unfold _search_previous_line.
  apply (scan_outcome trigger pivot judge self (rev section) false false).
Qed.

(** X7. [_search_previous_line] ignores empty lines: a blank line in which
    neither the trigger nor the pivot is found can be put anywhere in the
    section, or taken out, and the value and the check object stay the
    same. *)
Theorem search_previous_line_ignores_blank (self : check)
        (above below : list string) (b : string)
        (trigger pivot judge : string -> bool) :
  blank b = true -> trigger b = false -> pivot b = false ->
  _search_previous_line self (above ++ b :: below)%list trigger pivot judge
  = _search_previous_line self (above ++ below)%list trigger pivot judge.
Proof.
  intros Hb Ht Hp. unfold _search_previous_line.
  rewrite !rev_app_distr. cbn [rev]. rewrite <- List.app_assoc.
  cbn [app]. now apply scan_skips_blank.
Qed.

Lemma search_previous_line_ignores_blank_witness :
  _search_previous_line unevaluated
    (["%ant jar"] ++ "  " :: ["mvn-rpmbuild -Dmaven.test.skip"])%list
    (search skip_re) (search mvn_re) (search comment_re)
  = _search_previous_line unevaluated
      (["%ant jar"] ++ ["mvn-rpmbuild -Dmaven.test.skip"])%list
      (search skip_re) (search mvn_re) (search comment_re).
Proof.
  apply (search_previous_line_ignores_blank
           unevaluated ["%ant jar"] ["mvn-rpmbuild -Dmaven.test.skip"] "  "
           (search skip_re) (search mvn_re) (search comment_re));
    reflexivity.
Defined.

(** X8. CheckNoArch answers PASS, without text, or PENDING, with the
    request to verify a package that is one of the declared packages; it
    never answers FAIL or NOT-APPLICABLE.  With no declared package it
    answers PASS. *)
Theorem CheckNoArch_pass_or_pending (spec : SpecFile) (self : check) :
  (CheckNoArch.run_on_applicable spec self = MkCheck (Some PASS) None \/
   exists pkg, In pkg (packages spec) /\
               CheckNoArch.run_on_applicable spec self
               = MkCheck (Some PENDING)
                         (Some (pkg ++ " subpackage is not "
                                    ++ "noarch. Please verify manually")))
  /\
  (packages spec = [] ->
   CheckNoArch.run_on_applicable spec self = MkCheck (Some PASS) None).
Proof.
  unfold CheckNoArch.run_on_applicable. split.
  - induction (packages spec) as [|q l IH]; cbn [CheckNoArch.for_packages].
    + now left.
    + destruct (negb (CheckNoArch.is_noarch
                        (CheckNoArch.lowered (expand_tag spec "arch" q)))).
      * right. exists q. split; [now left | reflexivity].
      * destruct IH as [IH | [pkg [Hin IH]]]; [now left|].
        right. exists pkg. split; [now right | exact IH].
  - intros ->. reflexivity.
Qed.

Lemma CheckNoArch_pass_or_pending_witness :
  CheckNoArch.run_on_applicable (spec_of [] [] [] no_requires all_noarch)
                                unevaluated
  = MkCheck (Some PASS) None.
Proof.
  apply (proj2 (CheckNoArch_pass_or_pending
                  (spec_of [] [] [] no_requires all_noarch) unevaluated)).
  reflexivity.
Defined.

(** X9. The three javadoc checks agree on whether there is a javadoc
    subpackage: CheckJavadocJPackageRequires answers NOT-APPLICABLE exactly
    when CheckJavadoc fails with its text about the missing subpackage, and
    exactly when CheckJavadocdirName fails with 'No javadoc subpackage
    present'. *)
Theorem javadoc_checks_agree (spec : SpecFile) (rpms : RpmsSource)
        (self : check) :
  (result (CheckJavadocJPackageRequires.run_on_applicable spec self)
   = Some NA
   <-> CheckJavadoc.run_on_applicable spec rpms self
       = MkCheck (Some FAIL) (Some CheckJavadoc.no_subpackage_text)) /\
  (result (CheckJavadocJPackageRequires.run_on_applicable spec self)
   = Some NA
   <-> CheckJavadocdirName.run_on_applicable spec rpms self
       = MkCheck (Some FAIL) (Some "No javadoc subpackage present")).
Proof.
  unfold CheckJavadocJPackageRequires.run_on_applicable,
    CheckJavadoc.run_on_applicable, CheckJavadocdirName.run_on_applicable.
  rewrite get_javadoc_sub_hd. unfold javadoc_subpackages, javadoc_name.
  destruct (filter (fun pkg => endswith pkg "-javadoc") (packages spec))
    as [|p l] eqn:Hf.
  - split; split; reflexivity.
  - assert (Hp : javadoc_name p = true).
    { assert (Hin : In p (filter (fun pkg => endswith pkg "-javadoc")
                                 (packages spec)))
        by (rewrite Hf; now left).
      apply filter_In in Hin as [_ Hp]. exact Hp. }
    cbn [hd_error truthy_opt]. rewrite (javadoc_name_truthy p Hp).
    cbn [negb].
    assert (Hna : forall c,
               result (match l with
                       | [] => c
                       | _ :: _ =>
                           set_passed (Verdict PENDING)
                                      (Some "More than one javadoc package")
                                      self
                       end) = Some NA ->
               result c = Some NA)
      by (intros c; now destruct l).
    cbv zeta.
    split; (split; [intros H; apply Hna in H; exfalso;
                    destruct (existsb _ JAVAPACKAGES_R); discriminate H|]).
    + destruct (truthy_opt (find "*.html" (Some p) rpms));
        intros H; discriminate H.
    + destruct (truthy_list
                  (find_all (CheckJavadocdirName.name_ver_pattern spec)
                            (Some p) rpms));
        [intros H; discriminate H|].
      destruct (negb (truthy_list
                        (find_all (CheckJavadocdirName.name_pattern spec)
                                  (Some p) rpms)));
        intros H; discriminate H.
Qed.


(** X11. CheckJavadocdirName, for a package whose name and version have
    none of the characters [*], [?] and [[]: with a javadoc subpackage, the
    verdict is PASS if and only if some file of the subpackage lies under
    /usr/share/javadoc/<name>/ and none lies under
    /usr/share/javadoc/<name>-<version>/.  The directory
    /usr/share/javadoc/<name> itself, without a file under it, is not
    enough. *)
Theorem CheckJavadocdirName_directories (spec : SpecFile)
        (rpms : RpmsSource) (self : check) (pkg : string) :
  first_javadoc spec pkg ->
  no_glob_chars (name spec) = true ->
  no_glob_chars (version spec) = true ->
  (result (CheckJavadocdirName.run_on_applicable spec rpms self) = Some PASS
   <-> file_under rpms pkg ("/usr/share/javadoc/" ++ name spec ++ "/") /\
       ~ file_under rpms pkg
           ("/usr/share/javadoc/" ++ name spec ++ "-" ++ version spec
                                  ++ "/")) /\
  startswith ("/usr/share/javadoc/" ++ name spec)
             ("/usr/share/javadoc/" ++ name spec ++ "/") = false.
Proof.
  intros Hfirst Hn Hv. pose proof Hfirst as [pre [post' [_ [_ Hname]]]].
  split.
  - rewrite (javadocdir_result spec rpms self pkg
                               (get_javadoc_sub_first spec pkg Hfirst)
                               Hname).
    assert (Hglob : forall dir f,
               no_glob_chars dir = true ->
               fnmatch f (dir ++ "*") = startswith f dir)
      by (intros dir f Hd; now apply fnmatch_prefix_star).
    assert (H1 : truthy_list
                   (find_all (CheckJavadocdirName.name_pattern spec)
                             (Some pkg) rpms) = true
                 <-> file_under rpms pkg
                       ("/usr/share/javadoc/" ++ name spec ++ "/")).
    { rewrite find_all_truthy. unfold file_matching, file_under,
        CheckJavadocdirName.name_pattern.
      assert (Hd : no_glob_chars ("/usr/share/javadoc/" ++ name spec ++ "/")
                   = true)
        by (rewrite !no_glob_chars_app, Hn; reflexivity).
      split; intros [f [Hin Hm]]; exists f; (split; [exact Hin|]).
      - rewrite <- (Hglob _ f Hd). rewrite !app_assoc. exact Hm.
      - rewrite <- (Hglob _ f Hd) in Hm. rewrite !app_assoc in Hm.
        exact Hm. }
    assert (H2 : truthy_list
                   (find_all (CheckJavadocdirName.name_ver_pattern spec)
                             (Some pkg) rpms) = true
                 <-> file_under rpms pkg
                       ("/usr/share/javadoc/" ++ name spec ++ "-"
                                              ++ version spec ++ "/")).
    { rewrite find_all_truthy. unfold file_matching, file_under,
        CheckJavadocdirName.name_ver_pattern.
      assert (Hd : no_glob_chars ("/usr/share/javadoc/" ++ name spec ++ "-"
                                    ++ version spec ++ "/") = true)
        by (rewrite !no_glob_chars_app, Hn, Hv; reflexivity).
      split; intros [f [Hin Hm]]; exists f; (split; [exact Hin|]).
      - rewrite <- (Hglob _ f Hd). rewrite !app_assoc. exact Hm.
      - rewrite <- (Hglob _ f Hd) in Hm. rewrite !app_assoc in Hm.
        exact Hm. }
    rewrite <- H1, <- H2.
    destruct (truthy_list
                (find_all (CheckJavadocdirName.name_ver_pattern spec)
                          (Some pkg) rpms)),
      (truthy_list (find_all (CheckJavadocdirName.name_pattern spec)
                             (Some pkg) rpms));
      split; try discriminate; try reflexivity;
      try (intros [H3 H4]; try discriminate; exfalso; now apply H4).
    intros _. split; [reflexivity | discriminate].
  - apply not_true_is_false. intros H.
    apply startswith_spec in H as [rest H].
    assert (Hl : String.length ("/usr/share/javadoc/" ++ name spec)
                 = String.length
                     (("/usr/share/javadoc/" ++ name spec ++ "/") ++ rest))
      by (rewrite <- H; reflexivity).
    rewrite !length_app in Hl. simpl in Hl. lia.
Qed.

Lemma CheckJavadocdirName_directories_witness :
  result (CheckJavadocdirName.run_on_applicable maven_xmvn_spec javadoc_rpms
                                                unevaluated) = Some PASS.
Proof.
  assert (Hfirst : first_javadoc maven_xmvn_spec "foo-javadoc").
  { exists ["foo"], []. split; [reflexivity|]. split; [|reflexivity].
    intros q [<- | []]. reflexivity. }
  apply (proj1 (CheckJavadocdirName_directories
                  maven_xmvn_spec javadoc_rpms unevaluated "foo-javadoc"
                  Hfirst eq_refl eq_refl)).
  split.
  - exists "/usr/share/javadoc/foo/index.html".
    split; [simpl; auto | reflexivity].
  - intros [f [Hin Hm]]. simpl in Hin.
    repeat (destruct Hin as [<- | Hin]; [vm_compute in Hm; discriminate|]).
    exact Hin.
Defined.

(** X12. For a Maven package whose build output has a POM file,
    CheckNewStyleMaven and CheckAddMavenDepmap pass together: the one
    answers PASS if and only if the other does. *)
Theorem new_style_and_depmap_pass_together (spec : SpecFile)
        (rpms : RpmsSource) (self : check) :
  maven_marker spec ->
  built_file_matching rpms "*.pom" ->
  (result (CheckNewStyleMaven.run spec self) = Some PASS
   <-> result (CheckAddMavenDepmap.run spec rpms self) = Some PASS).
Proof.
  intros Hm Hpom. apply is_maven_iff in Hm. apply pom_found_iff in Hpom.
  unfold CheckNewStyleMaven.run, CheckAddMavenDepmap.run.
  rewrite Hm, Hpom. cbn [negb andb].
  destruct (truthy_opt (_is_xmvn_pkg spec)); [split; reflexivity|].
  destruct (truthy_opt
              (find_re CheckAddMavenDepmap.add_maven_depmap_re spec));
    split; discriminate.
Qed.

Lemma new_style_and_depmap_pass_together_witness :
  result (CheckNewStyleMaven.run maven_xmvn_spec unevaluated) = Some PASS
  <-> result (CheckAddMavenDepmap.run maven_xmvn_spec pom_rpms unevaluated)
      = Some PASS.
Proof.
  apply (new_style_and_depmap_pass_together maven_xmvn_spec pom_rpms
                                            unevaluated).
  - exists "maven-local". split; [simpl; auto | reflexivity].
  - exists "foo". split; [simpl; auto|].
    exists "/usr/share/maven-poms/foo.pom".
    split; [simpl; auto | reflexivity].
Defined.

(** X13. The four checks that look for POM files first are
    NOT-APPLICABLE together: each of CheckAddMavenDepmap,
    CheckUseMavenpomdirMacro, CheckUpdateDepmap and CheckNoRequiresPost
    answers NOT-APPLICABLE if and only if no file of the build output
    matches '*.pom', whatever the spec says. *)
Theorem pom_checks_not_applicable_together (spec : SpecFile)
        (rpms : RpmsSource) (scripts : Scriptlets) (self : check) :
  (result (CheckAddMavenDepmap.run spec rpms self) = Some NA
   <-> ~ built_file_matching rpms "*.pom") /\
  (result (CheckUseMavenpomdirMacro.run spec rpms self) = Some NA
   <-> ~ built_file_matching rpms "*.pom") /\
  (result (CheckUpdateDepmap.run spec rpms self) = Some NA
   <-> ~ built_file_matching rpms "*.pom") /\
  (result (CheckNoRequiresPost.run spec rpms scripts self) = Some NA
   <-> ~ built_file_matching rpms "*.pom").
Proof.
  rewrite <- pom_found_dec.
  unfold CheckAddMavenDepmap.run, CheckUseMavenpomdirMacro.run,
    CheckUpdateDepmap.run, CheckNoRequiresPost.run.
  destruct (truthy_opt (find "*.pom" None rpms)); cbn [negb].
  - repeat split; try discriminate.
    + destruct (truthy_opt (_is_xmvn_pkg spec)); [discriminate|].
      destruct (negb (truthy_opt
                        (find_re CheckAddMavenDepmap.add_maven_depmap_re
                                 spec))); discriminate.
    + destruct (truthy_opt (find_re CheckUseMavenpomdirMacro.regex spec));
        discriminate.
    + destruct (truthy_opt (find_re CheckUpdateDepmap.regex spec));
        discriminate.
    + cbv zeta.
      destruct (truthy
                  (if truthy_list
                        (CheckNoRequiresPost.for_packages
                           scripts (packages spec) [])
                   then "jpackage-utils post/postun in "
                        ++ join ", " (CheckNoRequiresPost.for_packages
                                        scripts (packages spec) [])
                   else "")); discriminate.
  - repeat split; reflexivity.
Qed.

(** X14. CheckJPackageRequires reads the same requirement lists in two
    opposite ways.  When a package that is neither Maven nor XMvn passes,
    a package with the same build-requires and requires that is Maven or
    XMvn fails: a passing package stops passing once its spec is moved to
    the XMvn macros with the requirements left as they are. *)
Theorem jpackage_requires_flips (spec converted : SpecFile) (self : check) :
  build_requires converted = build_requires spec ->
  get_requires converted None = get_requires spec None ->
  ~ (maven_marker spec \/ found_in_spec xmvn_re spec) ->
  maven_marker converted \/ found_in_spec xmvn_re converted ->
  result (CheckJPackageRequires.run_on_applicable spec self) = Some PASS ->
  result (CheckJPackageRequires.run_on_applicable converted self)
  = Some FAIL.
Proof.
  intros Hbr Hr Hold Hnew.
  rewrite <- is_maven_iff, <- is_xmvn_iff in Hold, Hnew.
  unfold CheckJPackageRequires.run_on_applicable. cbv zeta.
  rewrite Hbr, Hr.
  destruct (_is_maven_pkg spec); [exfalso; apply Hold; now left|].
  destruct (truthy_opt (_is_xmvn_pkg spec));
    [exfalso; apply Hold; now right|].
  assert (Hc : _is_maven_pkg converted
               || truthy_opt (_is_xmvn_pkg converted) = true)
    by (apply orb_true_iff; exact Hnew).
  rewrite Hc. cbn [orb].
  destruct (CheckJPackageRequires.any_token_in JAVAPACKAGES_BR
              (build_requires spec)),
    (CheckJPackageRequires.any_token_in JAVAPACKAGES_R
       (get_requires spec None)); simpl; intros H;
    try reflexivity; discriminate H.
Qed.

Lemma jpackage_requires_flips_witness :
  result (CheckJPackageRequires.run_on_applicable ant_tools_xmvn_spec
                                                  unevaluated) = Some FAIL.
Proof.
  apply (jpackage_requires_flips ant_tools_spec ant_tools_xmvn_spec
                                 unevaluated eq_refl eq_refl).
  - intros [[br [Hin H]] | [line [Hin H]]]; simpl in Hin.
    + repeat (destruct Hin as [<- | Hin]; [vm_compute in H; discriminate|]).
      exact Hin.
    + repeat (destruct Hin as [<- | Hin]; [vm_compute in H; discriminate|]).
      exact Hin.
  - right. exists "%mvn_build". split; [simpl; auto | reflexivity].
  - reflexivity.
Defined.
